(** * MatomoTracker: a shallow embedding of packages/js/src/MatomoTracker.ts

    The wrapper pushes command tuples on the page-wide array [window._paq]
    and, on first initialisation, inserts a [<script>] element in the
    document.  The embedding keeps the page state explicit: every method is
    a computation in a small state-and-exception monad over [Window]. *)

From Stdlib Require Import ZArith Ascii.
From stdpp Require Import base option list strings relations.

Local Open Scope Z_scope.
Local Open Scope nat_scope.

(** ** JavaScript values *)

(** The values that end up inside a command tuple.  Numbers are only ever
    forwarded (site id, dimension id, event value, result count), never
    computed on, so an integer payload is enough. *)
Inductive JsValue : Type :=
  | JUndefined
  | JNull
  | JBool (b : bool)
  | JNumber (n : Z)
  | JString (s : string).

#[global] Instance JsValue_eq_dec : EqDecision JsValue.
Proof. solve_decision. Defined.

(** One entry of the queue: a command name followed by its arguments. *)
Definition Tuple : Type := list JsValue.

(** An optional string or number read out of a parameter object. *)
Definition ofString (o : option string) : JsValue :=
  match o with Some s => JString s | None => JUndefined end.

Definition ofNumber (o : option Z) : JsValue :=
  match o with Some n => JNumber n | None => JUndefined end.

(** Truthiness of a possibly missing string: [undefined] and [''] are falsy. *)
Definition truthy (o : option string) : bool :=
  match o with
  | Some s => negb (String.eqb s "")
  | None => false
  end.

(** [a || b] on a possibly missing string [a]. *)
Definition orElse (a : option string) (b : string) : string :=
  match a with
  | Some s => if String.eqb s "" then b else s
  | None => b
  end.

(** [s[i]]: the character at index [i], [undefined] out of range. *)
Definition charAt (s : string) (i : Z) : option ascii :=
  if (i <? 0)%Z then None else String.get (Z.to_nat i) s.

(** [s[s.length - 1] !== '/'] *)
Definition lastIsNotSlash (s : string) : bool :=
  match charAt s (Z.of_nat (String.length s) - 1)%Z with
  | Some c => negb (Ascii.eqb c "/"%char)
  | None => true
  end.

(** ** Option objects and object spread *)

(** A property of an object literal: not written at all, written with the
    value [undefined], or written with a value.  The difference matters to
    the spread [{ ...defaultOptions, ...userOptions }], where a property
    written as [undefined] still overrides the default. *)
Inductive Slot (A : Type) : Type :=
  | Absent
  | Undefined
  | Present (a : A).
Arguments Absent {A}.
Arguments Undefined {A}.
Arguments Present {A} a.

(** Reading the property. *)
Definition readSlot {A} (s : Slot A) : option A :=
  match s with Present a => Some a | _ => None end.

(** [{ ...{p: d}, ...{p: u} }.p] *)
Definition spreadSlot {A} (d u : Slot A) : Slot A :=
  match u with Absent => d | _ => u end.

Record UserOptions : Type := {
  urlBase : Slot string;
  siteId : Slot JsValue;
  trackerUrl : Slot string;
  srcUrl : Slot string
}.

Definition spread (d u : UserOptions) : UserOptions :=
  {| urlBase := spreadSlot (urlBase d) (urlBase u);
     siteId := spreadSlot (siteId d) (siteId u);
     trackerUrl := spreadSlot (trackerUrl d) (trackerUrl u);
     srcUrl := spreadSlot (srcUrl d) (srcUrl u) |}.

(** The names of [TRACK_TYPES] (constants.ts). *)
Record TrackTypes : Type := {
  TRACK_EVENT : string;
  TRACK_SEARCH : string;
  TRACK_VIEW : string;
  TRACK_LINK : string
}.

(** ** Parameter objects of the tracking methods *)

Record CustomDimension : Type := {
  id : Z;
  value : string
}.

(** [customDimensions] is either a boolean or an array of dimensions. *)
Inductive CustomDimensions : Type :=
  | DimFlag (b : bool)
  | DimArray (l : list CustomDimension).

(** The pass-through parameters shared by all tracking calls. *)
Record TrackPageViewParams : Type := {
  documentTitle : option string;
  href : option string;
  customDimensions : option CustomDimensions
}.

Record TrackParams : Type := {
  data : option Tuple;
  trackParams : TrackPageViewParams
}.

Record TrackEventParams : Type := {
  category : option string;
  action : option string;
  name : option string;
  eventValue : option Z;
  eventParams : TrackPageViewParams
}.

Record TrackSiteSearchParams : Type := {
  keyword : option string;
  searchCategory : option string;
  count : option Z;
  searchParams : TrackPageViewParams
}.

Record TrackLinkParams : Type := {
  linkHref : option string;
  linkType : option string
}.

(** ** The page: document tree, location and command queue *)

Local Set Warnings "-register-all".

(** A DOM node: text, or an element with its tag name, the properties set
    on it and its children. *)
Inductive Node : Type :=
  | Text (s : string)
  | Elem (tagName : string) (props : list (string * JsValue)) (childNodes : list Node).

(** A node is referred to by the child indexes leading to it from the
    document. *)
Definition Path : Type := list nat.

Record Document : Type := {
  title : string;
  nodes : list Node
}.

Record Window : Type := {
  _paq : option (list Tuple);
  document : Document;
  location_href : string
}.

Definition set_paq (q : option (list Tuple)) (w : Window) : Window :=
  {| _paq := q; document := document w; location_href := location_href w |}.

Definition set_nodes (ns : list Node) (w : Window) : Window :=
  {| _paq := _paq w;
     document := {| title := title (document w); nodes := ns |};
     location_href := location_href w |}.

(** The tuples currently queued (none while [window._paq] is undefined). *)
Definition queue (w : Window) : list Tuple := default [] (_paq w).

(** ** DOM operations *)

(** Paths of the elements named [tag] in the subtree of a node (the node
    itself has the empty path) and below a list of siblings, of which [i]
    is the index of the first; both in tree order. *)
Fixpoint pathsOfNode (tag : string) (n : Node) : list Path :=
  match n with
  | Text _ => []
  | Elem t _ cs =>
      (if String.eqb t tag then [[]] else []) ++
      (fix pathsFrom (i : nat) (l : list Node) : list Path :=
         match l with
         | [] => []
         | c :: l' => map (cons i) (pathsOfNode tag c) ++ pathsFrom (S i) l'
         end) 0 cs
  end.

Fixpoint pathsFrom (tag : string) (i : nat) (l : list Node) : list Path :=
  match l with
  | [] => []
  | c :: l' => map (cons i) (pathsOfNode tag c) ++ pathsFrom tag (S i) l'
  end.

(** [doc.getElementsByTagName(tag)] *)
Definition getElementsByTagName (tag : string) (d : Document) : list Path :=
  pathsFrom tag 0 (nodes d).

(** The node a path leads to. *)
Fixpoint nodeAt (p : Path) (l : list Node) : option Node :=
  match p with
  | [] => None
  | [i] => l !! i
  | i :: p' =>
      match l !! i with
      | Some (Elem _ _ cs) => nodeAt p' cs
      | _ => None
      end
  end.

(** The tree with [new] put in as a child of the parent of the node at
    [p], right in front of that node. *)
Fixpoint insertAt (new : Node) (p : Path) (l : list Node) : list Node :=
  match p with
  | [] => l
  | [i] => take i l ++ new :: drop i l
  | i :: p' =>
      match l !! i with
      | Some (Elem t ps cs) => <[i := Elem t ps (insertAt new p' cs)]> l
      | _ => l
      end
  end.

(** Whether a list of sibling nodes holds an element. *)
Definition hasElement (l : list Node) : bool :=
  existsb (fun n => match n with Elem _ _ _ => true | Text _ => false end) l.

(** [ref.parentNode.insertBefore(new, ref)], [ref] being the node at [p];
    [None] stands for the DOM's [HierarchyRequestError].  A parent that
    is an element takes any new child.  When [p] is a single index the
    parent is the document itself, which takes no text node and no second
    element child. *)
Definition insertBefore (new : Node) (p : Path) (l : list Node) : option (list Node) :=
  match p with
  | [_] =>
      match new with
      | Elem _ _ _ => if hasElement l then None else Some (insertAt new p l)
      | Text _ => None
      end
  | _ => Some (insertAt new p l)
  end.

(** The sibling position right after [p]. *)
Fixpoint nextSibling (p : Path) : Path :=
  match p with
  | [] => []
  | [i] => [S i]
  | i :: p' => i :: nextSibling p'
  end.

(** ** Computations on the page *)

Inductive Exn : Type :=
  | Error (message : string)
  | TypeError
  | HierarchyRequestError.

Inductive Outcome (A : Type) : Type :=
  | Return (a : A)
  | Throw (e : Exn).
Arguments Return {A} a.
Arguments Throw {A} e.

(** A computation runs on a page and ends normally or by throwing; either
    way the page is left in the state reached so far. *)
Definition M (A : Type) : Type := Window -> Outcome A * Window.

#[global] Instance M_ret : MRet M := fun A a w => (Return a, w).

#[global] Instance M_bind : MBind M := fun A B f m w =>
  match m w with
  | (Return a, w') => f a w'
  | (Throw e, w') => (Throw e, w')
  end.

Definition throw {A} (e : Exn) : M A := fun w => (Throw e, w).

Definition getWindow : M Window := fun w => (Return w, w).

Definition putWindow (w : Window) : M unit := fun _ => (Return tt, w).

(** [window._paq.push(t)]; calling [push] on [undefined] is a [TypeError]. *)
Definition push (t : Tuple) : M unit := fun w =>
  match _paq w with
  | Some q => (Return tt, set_paq (Some (q ++ [t])) w)
  | None => (Throw TypeError, w)
  end.

(** [l.map(x => f x)], used for its effects only. *)
Fixpoint forEach {A} (f : A -> M unit) (l : list A) : M unit :=
  match l with
  | [] => mret tt
  | x :: l' => f x ;; forEach f l'
  end.

(** ** The wrapper *)

Section MatomoTracker.

(** [defaultOptions] and [TRACK_TYPES] are imported from constants.ts. *)
Variable defaultOptions : UserOptions.
Variable TRACK_TYPES : TrackTypes.

(** The element built by [createElement('script')] and the four
    assignments to [type], [async], [defer] and [src]. *)
Definition scriptElement (src : string) : Node :=
  Elem "script"
    [("type", JString "text/javascript"); ("async", JBool true);
     ("defer", JBool true); ("src", JString src)]
    [].

(** Lines 24-26: the base URL with a trailing slash. *)
Definition withTrailingSlash (urlBase : string) : string :=
  if lastIsNotSlash urlBase then urlBase +:+ "/" else urlBase.

(** [static initialize({ urlBase, siteId, trackerUrl, srcUrl })].
    Indexing an [undefined] base URL is a [TypeError].  Every element
    found through the document has a parent (another element or the
    document), so [scripts && scripts.parentNode] holds exactly when a
    script element exists; the insertion itself throws when the DOM
    refuses it. *)
Definition initialize (o : UserOptions) : M unit :=
  match readSlot (urlBase o) with
  | None => throw TypeError
  | Some urlBase =>
      let urlBase := withTrailingSlash urlBase in
      w ← getWindow;
      putWindow
        (set_paq (match _paq w with Some q => Some q | None => Some [] end) w);;
      w ← getWindow;
      if length (queue w) =? 0 then
        push [JString "setTrackerUrl";
              JString (orElse (readSlot (trackerUrl o)) (urlBase +:+ "matomo.php"))];;
        push [JString "setSiteId"; default JUndefined (readSlot (siteId o))];;
        push [JString "enableHeartBeatTimer"];;
        push [JString "enableLinkTracking"];;
        w ← getWindow;
        let scriptElement :=
          scriptElement (orElse (readSlot (srcUrl o)) (urlBase +:+ "matomo.js")) in
        match head (getElementsByTagName "script" (document w)) with
        | Some scripts =>
            match insertBefore scriptElement scripts (nodes (document w)) with
            | Some ns => putWindow (set_nodes ns w)
            | None => throw HierarchyRequestError
            end
        | None => mret tt
        end
      else mret tt
  end.

(** [new MatomoTracker(userOptions)] *)
Definition constructor (userOptions : UserOptions) : M unit :=
  let options := spread defaultOptions userOptions in
  if negb (truthy (readSlot (urlBase options)))
  then throw (Error "Matomo urlBase is required.")
  else initialize options.

Definition dimensionTuple (customDimension : CustomDimension) : Tuple :=
  [JString "setCustomDimension"; JNumber (id customDimension);
   JString (value customDimension)].

(** [track({ data = [], documentTitle = window.document.title,
             href = window.location.href, customDimensions = false })] *)
Definition track (p : TrackParams) : M unit :=
  w ← getWindow;
  let data := default [] (data p) in
  let documentTitle := default (title (document w)) (documentTitle (trackParams p)) in
  let href := default (location_href w) (href (trackParams p)) in
  let customDimensions :=
    default (DimFlag false) (customDimensions (trackParams p)) in
  if negb (length data =? 0) then
    match customDimensions with
    | DimArray l =>
        if negb (length l =? 0)
        then forEach (fun customDimension => push (dimensionTuple customDimension)) l
        else mret tt
    | DimFlag _ => mret tt
    end;;
    push [JString "setCustomUrl"; JString href];;
    push [JString "setDocumentTitle"; JString documentTitle];;
    push data
  else mret tt.

(** [trackEvent({ category, action, name, value, ...otherParams })] *)
Definition trackEvent (p : TrackEventParams) : M unit :=
  if truthy (category p) && truthy (action p) then
    track {| data := Some [JString (TRACK_EVENT TRACK_TYPES);
                           ofString (category p); ofString (action p);
                           ofString (name p); ofNumber (eventValue p)];
             trackParams := eventParams p |}
  else throw (Error "Error: category and action are required.").

(** [trackSiteSearch({ keyword, category, count, ...otherParams })] *)
Definition trackSiteSearch (p : TrackSiteSearchParams) : M unit :=
  if truthy (keyword p) then
    track {| data := Some [JString (TRACK_SEARCH TRACK_TYPES);
                           ofString (keyword p); ofString (searchCategory p);
                           ofNumber (count p)];
             trackParams := searchParams p |}
  else throw (Error "Error: keyword is required.").

(** [trackLink({ href, linkType = 'link' })] *)
Definition trackLink (p : TrackLinkParams) : M unit :=
  push [JString (TRACK_LINK TRACK_TYPES); ofString (linkHref p);
        JString (default "link" (linkType p))].

(** [trackPageView(params)] *)
Definition trackPageView (params : TrackPageViewParams) : M unit :=
  track {| data := Some [JString (TRACK_VIEW TRACK_TYPES)]; trackParams := params |}.

(** Any one call into the wrapper. *)
Inductive Call : Type :=
  | New (userOptions : UserOptions)
  | Initialize (options : UserOptions)
  | Track (p : TrackParams)
  | TrackEvent (p : TrackEventParams)
  | TrackSiteSearch (p : TrackSiteSearchParams)
  | TrackLink (p : TrackLinkParams)
  | TrackPageView (p : TrackPageViewParams).

Definition call (c : Call) : M unit :=
  match c with
  | New o => constructor o
  | Initialize o => initialize o
  | Track p => track p
  | TrackEvent p => trackEvent p
  | TrackSiteSearch p => trackSiteSearch p
  | TrackLink p => trackLink p
  | TrackPageView p => trackPageView p
  end.

End MatomoTracker.

(** * Vocabulary of the statements *)

(** The page after the tuples [ts] have been pushed. *)
Definition pushed (ts : list Tuple) (w : Window) : Window :=
  set_paq (Some (queue w ++ ts)) w.

(** The tuples [track] pushes for its [customDimensions] parameter. *)
Definition dimensionTuples (o : option CustomDimensions) : list Tuple :=
  match o with
  | Some (DimArray l) => map dimensionTuple l
  | _ => []
  end.

(** The URL and title a call resolves to on page [w]. *)
Definition resolvedHref (p : TrackPageViewParams) (w : Window) : string :=
  default (location_href w) (href p).

Definition resolvedTitle (p : TrackPageViewParams) (w : Window) : string :=
  default (title (document w)) (documentTitle p).

(** Everything a [track] call with the non-empty tuple [d] appends. *)
Definition trackTuples (p : TrackPageViewParams) (d : Tuple) (w : Window) : list Tuple :=
  dimensionTuples (customDimensions p) ++
  [[JString "setCustomUrl"; JString (resolvedHref p w)];
   [JString "setDocumentTitle"; JString (resolvedTitle p w)];
   d].

(** The event tuple [[EVENT, category, action, name, value]]. *)
Definition eventTuple (TRACK_TYPES : TrackTypes) (p : TrackEventParams) : Tuple :=
  [JString (TRACK_EVENT TRACK_TYPES); ofString (category p); ofString (action p);
   ofString (name p); ofNumber (eventValue p)].

(** The four tuples [initialize] pushes on an empty queue, for the
    slash-terminated base URL [urlBase]. *)
Definition initTuples (urlBase : string) (o : UserOptions) : list Tuple :=
  [ [JString "setTrackerUrl";
     JString (orElse (readSlot (trackerUrl o)) (urlBase +:+ "matomo.php"))];
    [JString "setSiteId"; default JUndefined (readSlot (siteId o))];
    [JString "enableHeartBeatTimer"];
    [JString "enableLinkTracking"] ].

(** The script element [initialize] builds. *)
Definition newScript (urlBase : string) (o : UserOptions) : Node :=
  scriptElement (orElse (readSlot (srcUrl o)) (urlBase +:+ "matomo.js")).

(** Whether the first script element of the document is a child of the
    document itself. *)
Definition firstScriptAtRoot (d : Document) : bool :=
  match head (getElementsByTagName "script" d) with
  | Some [_] => true
  | _ => false
  end.

(** The document after [new] has been put in front of its first script
    element, if it has one below some element. *)
Definition withScript (new : Node) (d : Document) : Document :=
  match head (getElementsByTagName "script" d) with
  | Some (i :: j :: p) =>
      {| title := title d; nodes := insertAt new (i :: j :: p) (nodes d) |}
  | _ => d
  end.

(** How a first initialisation ends on a page with document [d]. *)
Definition insertionOutcome (d : Document) : Outcome unit :=
  if firstScriptAtRoot d then Throw HierarchyRequestError else Return tt.

Definition endsWithSlash (s : string) : Prop := exists s', s = s' +:+ "/".

Fixpoint lastChar (s : string) : option ascii :=
  match s with
  | EmptyString => None
  | String c EmptyString => Some c
  | String _ s' => lastChar s'
  end.

(** C6 as the specification words it: with category and action both given
    (the empty string included) and no custom dimensions, [trackEvent]
    appends the URL, title and event tuples. *)
Definition trackEvent_present_claim
    (TRACK_TYPES : TrackTypes) (p : TrackEventParams) (w : Window) : Prop :=
  forall q c a,
    _paq w = Some q -> category p = Some c -> action p = Some a ->
    customDimensions (eventParams p) = None ->
    exists w',
      trackEvent TRACK_TYPES p w = (Return tt, w') /\
      queue w' =
        q ++
        [[JString "setCustomUrl"; JString (resolvedHref (eventParams p) w)];
         [JString "setDocumentTitle"; JString (resolvedTitle (eventParams p) w)];
         [JString (TRACK_EVENT TRACK_TYPES); JString c; JString a;
          ofString (name p); ofNumber (eventValue p)]].

(** C4 as the specification words it: every successful construction
    leaves the document with the new script element in front of its first
    script element, or at its end when it has none. *)
Definition script_always_ensured_claim
    (defaultOptions u : UserOptions) (w : Window) : Prop :=
  forall b,
    readSlot (urlBase (spread defaultOptions u)) = Some b -> b <> "" ->
    exists w',
      constructor defaultOptions u w = (Return tt, w') /\
      nodes (document w') =
        let new := newScript (withTrailingSlash b) (spread defaultOptions u) in
        match head (getElementsByTagName "script" (document w)) with
        | Some p => insertAt new p (nodes (document w))
        | None => nodes (document w) ++ [new]
        end.

(** C3 as the specification words it: with a non-empty base URL the
    construction always returns. *)
Definition construction_always_returns_claim
    (defaultOptions u : UserOptions) (w : Window) : Prop :=
  forall b,
    readSlot (urlBase (spread defaultOptions u)) = Some b -> b <> "" ->
    exists w', constructor defaultOptions u w = (Return tt, w').

(** ** Sample inputs *)

Module Sample.

(** Defaults that set nothing, and one choice of command names. *)
Definition defaults : UserOptions :=
  {| urlBase := Absent; siteId := Absent; trackerUrl := Absent; srcUrl := Absent |}.

Definition trackTypes : TrackTypes :=
  {| TRACK_EVENT := "trackEvent"; TRACK_SEARCH := "trackSiteSearch";
     TRACK_VIEW := "trackPageView"; TRACK_LINK := "trackLink" |}.

Definition options (base : string) : UserOptions :=
  {| urlBase := Present base; siteId := Present (JNumber 1);
     trackerUrl := Absent; srcUrl := Absent |}.

Definition noBase : UserOptions :=
  {| urlBase := Absent; siteId := Present (JNumber 1);
     trackerUrl := Absent; srcUrl := Absent |}.

Definition html (head body : list Node) : list Node :=
  [Elem "html" [] [Elem "head" [] head; Elem "body" [] body]].

(** A freshly loaded page: no queue yet, one script in the head. *)
Definition freshPage : Window :=
  {| _paq := None;
     document :=
       {| title := "Home";
          nodes := html [Elem "title" [] [Text "Home"];
                         Elem "script" [("src", JString "app.js")] []]
                        [Elem "h1" [] [Text "Hello"]] |};
     location_href := "http://site.example/" |}.

(** The same page without any script element. *)
Definition scriptlessPage : Window :=
  {| _paq := None;
     document :=
       {| title := "Home";
          nodes := html [Elem "title" [] [Text "Home"]]
                        [Elem "h1" [] [Text "Hello"]] |};
     location_href := "http://site.example/" |}.

(** [freshPage] with a queue that already holds a command. *)
Definition busyPage : Window :=
  set_paq (Some [[JString "setSiteId"; JNumber 7]]) freshPage.

Definition noParams : TrackPageViewParams :=
  {| documentTitle := None; href := None; customDimensions := None |}.

Definition twoDimensions : TrackPageViewParams :=
  {| documentTitle := Some "Title"; href := None;
     customDimensions :=
       Some (DimArray [ {| id := 1; value := "a" |}; {| id := 2; value := "b" |} ]) |}.

Definition event (category action : option string) : TrackEventParams :=
  {| category := category; action := action; name := None; eventValue := None;
     eventParams := noParams |}.

Definition search (keyword : option string) : TrackSiteSearchParams :=
  {| keyword := keyword; searchCategory := None; count := None;
     searchParams := noParams |}.

Definition link : TrackLinkParams :=
  {| linkHref := Some "http://out.example"; linkType := None |}.

(** A page whose document has a script element as its root, as an SVG or
    XML document can. *)
Definition rootScriptPage : Window :=
  {| _paq := None;
     document := {| title := ""; nodes := [Elem "script" [] []] |};
     location_href := "http://site.example/" |}.

End Sample.

(** * Declarative click tracking *)

(** The [dataset] entries the click listener reads off its element. *)
Record Dataset : Type := {
  matomoCategory : option string;
  matomoAction : option string;
  matomoName : option string;
  matomoValue : option string
}.

Section TrackEvents.

Variable TRACK_TYPES : TrackTypes.

(** [Number(x)] for a possibly missing string [x]: the number it evaluates
    to ([NaN] included), as the payload [JNumber] carries.  The conversion
    is the language's; the wrapper only forwards its result. *)
Variable Number : option string -> Z.

(** The listener [trackEvents] attaches to a matching element (lines
    62-81), run on the element's [dataset] when the click arrives. *)
Definition clickListener (d : Dataset) : M unit :=
  if truthy (matomoCategory d) && truthy (matomoAction d) then
    trackEvent TRACK_TYPES
      {| category := matomoCategory d;
         action := matomoAction d;
         name := matomoName d;
         eventValue := Some (Number (matomoValue d));
         eventParams :=
           {| documentTitle := None; href := None; customDimensions := None |} |}
  else throw (Error "Error: data-matomo-category and data-matomo-action are required.").

End TrackEvents.

(** * Pages over time *)

(** One call into the wrapper takes the page from [w] to [w'], whether it
    returns or throws. *)
Definition step (defaultOptions : UserOptions) (TRACK_TYPES : TrackTypes)
    (w w' : Window) : Prop :=
  exists c, w' = (call defaultOptions TRACK_TYPES c w).2.

(** The number of elements named [tag] in a list of sibling subtrees. *)
Definition countTag (tag : string) (l : list Node) : nat :=
  length (pathsFrom tag 0 l).

Module Sample2.

(** Options with both URL overrides set. *)
Definition overridden : UserOptions :=
  {| urlBase := Present "http://x"; siteId := Absent;
     trackerUrl := Present "http://t.example/collect";
     srcUrl := Present "http://cdn.example/m.js" |}.

(** Defaults that do carry a base URL. *)
Definition defaultsWithBase : UserOptions :=
  {| urlBase := Present "http://default/"; siteId := Absent;
     trackerUrl := Absent; srcUrl := Absent |}.

Definition undefinedBase : UserOptions :=
  {| urlBase := Undefined; siteId := Present (JNumber 1);
     trackerUrl := Absent; srcUrl := Absent |}.

(** A stand-in for [Number]: 0 where the real one gives [NaN]. *)
Definition number (o : option string) : Z :=
  match o with Some "12" => 12%Z | _ => 0%Z end.

Definition dataset (category action : option string) : Dataset :=
  {| matomoCategory := category; matomoAction := action;
     matomoName := Some "n"; matomoValue := Some "12" |}.

Definition searchFor (k : string) : TrackSiteSearchParams :=
  {| keyword := Some k; searchCategory := Some "docs"; count := None;
     searchParams := Sample.twoDimensions |}.

Definition eventWithDimensions : TrackEventParams :=
  {| category := Some "c"; action := Some "a"; name := Some "n"; eventValue := Some 5%Z;
     eventParams := Sample.twoDimensions |}.

Definition download : TrackLinkParams :=
  {| linkHref := None; linkType := Some "download" |}.

End Sample2.

(** * Properties *)

(** ** Running computations *)

Lemma run_bind {A B} (m : M A) (k : A -> M B) (w : Window) :
  (m ≫= k) w =
  match m w with
  | (Return a, w') => k a w'
  | (Throw e, w') => (Throw e, w')
  end.
Proof. reflexivity. Qed.

Lemma run_ret {A} (a : A) (w : Window) : (mret a : M A) w = (Return a, w).
Proof. reflexivity. Qed.

Lemma paq_pushed ts w : _paq (pushed ts w) = Some (queue w ++ ts).
Proof. reflexivity. Qed.

Lemma queue_pushed ts w : queue (pushed ts w) = queue w ++ ts.
Proof. reflexivity. Qed.

Lemma pushed_nil w : is_Some (_paq w) -> pushed [] w = w.
Proof.
  intros [q Hq]. destruct w as [paq d h]; simpl in *; subst.
  unfold pushed, set_paq, queue; simpl. by rewrite app_nil_r.
Qed.

Lemma pushed_pushed ts us w : pushed us (pushed ts w) = pushed (ts ++ us) w.
Proof. unfold pushed, set_paq, queue; simpl. by rewrite app_assoc. Qed.

Lemma push_defined t w :
  is_Some (_paq w) -> push t w = (Return tt, pushed [t] w).
Proof. intros [q Hq]. unfold push, pushed, queue. by rewrite Hq. Qed.

Lemma push_undefined t w : _paq w = None -> push t w = (Throw TypeError, w).
Proof. intros Hq. unfold push. by rewrite Hq. Qed.

Lemma forEach_push {A} (f : A -> Tuple) (l : list A) (w : Window) :
  is_Some (_paq w) ->
  forEach (fun x => push (f x)) l w = (Return tt, pushed (map f l) w).
Proof.
  revert w. induction l as [|x l IH]; intros w Hw; simpl.
  - by rewrite pushed_nil.
  - rewrite run_bind, push_defined by done.
    rewrite IH by (rewrite paq_pushed; eauto).
    by rewrite pushed_pushed.
Qed.

(** Runs a sequence of pushes on a page whose queue is defined. *)
Ltac run :=
  repeat first
    [ rewrite run_bind
    | rewrite run_ret
    | rewrite push_defined by (rewrite ?paq_pushed; eauto)
    | rewrite push_undefined by done
    | rewrite pushed_pushed
    | progress cbv beta iota ].

(** ** The generic dispatcher *)

Lemma track_nonempty p d w :
  is_Some (_paq w) -> data p = Some d -> d <> [] ->
  track p w = (Return tt, pushed (trackTuples (trackParams p) d w) w).
Proof.
  intros Hw Hd Hne. unfold track. rewrite run_bind. simpl. rewrite Hd. simpl.
  destruct d as [|v d]; [done|]. simpl.
  unfold trackTuples, dimensionTuples, resolvedHref, resolvedTitle.
  destruct (customDimensions (trackParams p)) as [[b|[|x l]]|]; simpl;
    try (run; done).
  rewrite !run_bind, push_defined by done.
  rewrite (forEach_push dimensionTuple) by (rewrite paq_pushed; eauto).
  run. done.
Qed.

Lemma track_empty p w : default [] (data p) = [] -> track p w = (Return tt, w).
Proof. intros Hd. unfold track. rewrite run_bind. simpl. by rewrite Hd. Qed.

Lemma track_undefined p d w :
  _paq w = None -> data p = Some d -> d <> [] -> track p w = (Throw TypeError, w).
Proof.
  intros Hw Hd Hne. unfold track. rewrite run_bind. simpl. rewrite Hd. simpl.
  destruct d as [|v d]; [done|]. simpl.
  destruct (customDimensions (trackParams p)) as [[b|[|x l]]|]; simpl;
    run; done.
Qed.

(** ** The document tree *)

Lemma pathsOfNode_Elem tag t ps cs :
  pathsOfNode tag (Elem t ps cs) =
  (if String.eqb t tag then [[]] else []) ++ pathsFrom tag 0 cs.
Proof.
  simpl. f_equal. generalize 0.
  induction cs as [|c cs IH]; intros i; simpl; [done|]. by rewrite IH.
Qed.

(** Every path listed for a list of siblings starts at one of them. *)
Lemma In_pathsFrom tag p l i :
  In p (pathsFrom tag i l) ->
  exists j c p', p = (i + j) :: p' /\ l !! j = Some c /\ In p' (pathsOfNode tag c).
Proof.
  revert i. induction l as [|c l IH]; intros i; simpl; [done|].
  rewrite in_app_iff, in_map_iff. intros [(p' & <- & Hp')|H].
  - exists 0, c, p'. by rewrite Nat.add_0_r.
  - destruct (IH _ H) as (j & c' & p' & -> & Hj & Hp').
    exists (S j), c', p'. by rewrite Nat.add_succ_r.
Qed.

(** A path returned by [getElementsByTagName] leads to an element of that
    name. *)
Lemma nodeAt_pathsFrom tag p l :
  In p (pathsFrom tag 0 l) -> exists ps cs, nodeAt p l = Some (Elem tag ps cs).
Proof.
  revert l. induction p as [|i p IH]; intros l Hin;
    apply In_pathsFrom in Hin as (j & c & p' & Heq & Hc & Hp'); [done|].
  simpl in Heq. injection Heq as -> ->.
  destruct c as [s|t ps cs]; [done|].
  rewrite pathsOfNode_Elem in Hp'. apply in_app_iff in Hp' as [H|H].
  - destruct (String.eqb_spec t tag) as [->|]; [|done].
    destruct H as [<-|[]]. simpl. eauto.
  - destruct (IH _ H) as (ps' & cs' & Hn).
    destruct p' as [|k p']; [done|].
    exists ps', cs'. simpl. rewrite Hc. exact Hn.
Qed.

Lemma head_In {A} (l : list A) (x : A) : head l = Some x -> In x l.
Proof. destruct l; simpl; [done|]. intros [= ->]. by left. Qed.

Lemma nextSibling_cons i k p : nextSibling (i :: k :: p) = i :: nextSibling (k :: p).
Proof. reflexivity. Qed.

Lemma nextSibling_nonempty k p : nextSibling (k :: p) <> [].
Proof. by destruct p. Qed.

(** After [insertAt], the new node sits where the reference node was
    and the reference node is its next sibling. *)
Lemma nodeAt_insertAt new p l n :
  nodeAt p l = Some n ->
  nodeAt p (insertAt new p l) = Some new /\
  nodeAt (nextSibling p) (insertAt new p l) = Some n.
Proof.
  revert l. induction p as [|i p IH]; intros l H; [done|].
  destruct p as [|k p].
  - simpl in *. pose proof (lookup_lt_Some _ _ _ H) as Hlt.
    assert (length (take i l) = i) as Hlen by (rewrite length_take; lia).
    split.
    + rewrite lookup_app_r by lia. by rewrite Hlen, Nat.sub_diag.
    + rewrite lookup_app_r by lia. rewrite Hlen.
      replace (S i - i) with 1 by lia. simpl.
      rewrite lookup_drop. by rewrite Nat.add_0_r.
  - change (nodeAt (i :: k :: p) l) with
      (match l !! i with Some (Elem _ _ cs) => nodeAt (k :: p) cs | _ => None end) in H.
    change (insertAt new (i :: k :: p) l) with
      (match l !! i with
       | Some (Elem t ps cs) => <[i := Elem t ps (insertAt new (k :: p) cs)]> l
       | _ => l
       end).
    destruct (l !! i) as [[s|t ps cs]|] eqn:Hi; try done.
    destruct (IH _ H) as [IH1 IH2].
    pose proof (lookup_lt_Some _ _ _ Hi) as Hlt.
    split.
    + change (nodeAt (i :: k :: p) ?l') with
        (match l' !! i with Some (Elem _ _ cs) => nodeAt (k :: p) cs | _ => None end).
      by rewrite list_lookup_insert_eq.
    + rewrite nextSibling_cons.
      pose proof (nextSibling_nonempty k p) as Hne.
      destruct (nextSibling (k :: p)) as [|k' p'] eqn:Hs; [done|].
      change (nodeAt (i :: k' :: p') ?l') with
        (match l' !! i with Some (Elem _ _ cs) => nodeAt (k' :: p') cs | _ => None end).
      by rewrite list_lookup_insert_eq.
Qed.

(** ** Construction and initialisation *)

Lemma head_app {A} (l1 l2 : list A) :
  head (l1 ++ l2) = match head l1 with Some x => Some x | None => head l2 end.
Proof. by destruct l1. Qed.

Lemma insertAt_later new j p c l :
  insertAt new (S j :: p) (c :: l) = c :: insertAt new (j :: p) l.
Proof.
  destruct p as [|k p]; [done|].
  change (insertAt new (S j :: k :: p) (c :: l)) with
    (match l !! j with
     | Some (Elem t ps cs) => <[S j := Elem t ps (insertAt new (k :: p) cs)]> (c :: l)
     | _ => c :: l
     end).
  change (insertAt new (j :: k :: p) l) with
    (match l !! j with
     | Some (Elem t ps cs) => <[j := Elem t ps (insertAt new (k :: p) cs)]> l
     | _ => l
     end).
  by destruct (l !! j) as [[s|t ps cs]|].
Qed.

(** The inserted element takes the place of the first element of its name:
    it is the first one of the new tree. *)
Lemma head_pathsFrom_insertAt tag nps p :
  forall l i j,
    head (pathsFrom tag i l) = Some ((i + j) :: p) ->
    head (pathsFrom tag i (insertAt (Elem tag nps []) (j :: p) l)) = Some ((i + j) :: p).
Proof.
  induction p as [|k p IHp]; intros l; induction l as [|c l IHl]; intros i j; try done.
  - (* the reference node is one of the siblings [c :: l] *)
    cbn [pathsFrom]. rewrite head_app.
    destruct (pathsOfNode tag c) as [|r rs] eqn:Hc; cbn [map head].
    + intros H. destruct (In_pathsFrom _ _ _ _ (head_In _ _ H)) as (j' & c' & p' & Heq & _).
      injection Heq as Hij _. assert (j = S j') as -> by lia.
      rewrite insertAt_later. cbn [pathsFrom]. rewrite Hc. cbn [map app].
      rewrite Nat.add_succ_r in *. by apply (IHl (S i) j').
    + intros [= Hj ->]. assert (j = 0) as -> by lia.
      cbn [insertAt take drop app pathsFrom]. rewrite pathsOfNode_Elem.
      rewrite String.eqb_refl. cbn [app map head]. by rewrite Nat.add_0_r.
  - (* the reference node lies below one of the siblings [c :: l] *)
    cbn [pathsFrom]. rewrite head_app.
    destruct (pathsOfNode tag c) as [|r rs] eqn:Hc; cbn [map head].
    + intros H. destruct (In_pathsFrom _ _ _ _ (head_In _ _ H)) as (j' & c' & p' & Heq & _).
      injection Heq as Hij _. assert (j = S j') as -> by lia.
      rewrite insertAt_later. cbn [pathsFrom]. rewrite Hc. cbn [map app].
      rewrite Nat.add_succ_r in *. by apply (IHl (S i) j').
    + intros [= Hj ->]. assert (j = 0) as -> by lia.
      destruct c as [s|t ps cs]; [done|].
      rewrite pathsOfNode_Elem in Hc.
      destruct (String.eqb t tag) eqn:Ht; [done|]. cbn [app] in Hc.
      change (insertAt (Elem tag nps []) (0 :: k :: p) (Elem t ps cs :: l)) with
        (Elem t ps (insertAt (Elem tag nps []) (k :: p) cs) :: l).
      cbn [pathsFrom]. rewrite pathsOfNode_Elem, Ht. cbn [app].
      rewrite head_app.
      assert (head (pathsFrom tag 0 cs) = Some ((0 + k) :: p)) as H0 by (by rewrite Hc).
      apply IHp in H0. cbn [Nat.add] in H0.
      destruct (pathsFrom tag 0 (insertAt (Elem tag nps []) (k :: p) cs)) as [|r' rs'];
        [done|].
      cbn [head] in H0. injection H0 as ->. by rewrite Nat.add_0_r.
Qed.

Lemma head_getElementsByTagName_insertAt tag nps p l :
  head (pathsFrom tag 0 l) = Some p ->
  head (pathsFrom tag 0 (insertAt (Elem tag nps []) p l)) = Some p.
Proof.
  intros H. destruct p as [|j p].
  - destruct (In_pathsFrom _ _ _ _ (head_In _ _ H)) as (j' & c' & p' & Heq & _).
    discriminate Heq.
  - by apply (head_pathsFrom_insertAt tag nps p l 0 j).
Qed.

(** ** Initialisation *)

Lemma initialize_undefined o w :
  readSlot (urlBase o) = None -> initialize o w = (Throw TypeError, w).
Proof. intros H. unfold initialize. by rewrite H. Qed.

Lemma initialize_nonempty o b w :
  readSlot (urlBase o) = Some b -> queue w <> [] -> initialize o w = (Return tt, w).
Proof.
  intros Hb Hq. unfold initialize. rewrite Hb.
  destruct w as [[[|t q]|] d h]; done.
Qed.

Lemma hasElement_lookup l i t ps cs :
  l !! i = Some (Elem t ps cs) -> hasElement l = true.
Proof.
  intros H. unfold hasElement. apply existsb_exists. exists (Elem t ps cs).
  split; [|done]. apply list_elem_of_In, list_elem_of_lookup. eauto.
Qed.

(** The DOM refuses the insertion in front of a child of the document. *)
Lemma insertBefore_root tag new_t new_ps new_cs i l :
  head (pathsFrom tag 0 l) = Some [i] ->
  insertBefore (Elem new_t new_ps new_cs) [i] l = None.
Proof.
  intros H. destruct (nodeAt_pathsFrom tag [i] l (head_In _ _ H)) as (ps & cs & Hn).
  simpl in Hn. unfold insertBefore. by rewrite (hasElement_lookup _ _ _ _ _ Hn).
Qed.

(** A first initialisation queues the four tuples and then tries the
    insertion. *)
Lemma initialize_empty o b w :
  readSlot (urlBase o) = Some b -> queue w = [] ->
  initialize o w =
    (insertionOutcome (document w),
     {| _paq := Some (initTuples (withTrailingSlash b) o);
        document := withScript (newScript (withTrailingSlash b) o) (document w);
        location_href := location_href w |}).
Proof.
  intros Hb Hq. unfold initialize. rewrite Hb.
  destruct w as [[[|t q]|] [ti ns] h]; try done;
    unfold insertionOutcome, firstScriptAtRoot, withScript, getElementsByTagName,
      mbind, M_bind, getWindow, putWindow, push, mret, M_ret, throw, scriptElement;
    cbn -[withTrailingSlash String.append pathsFrom insertBefore insertAt];
    destruct (head (pathsFrom "script" 0 ns)) as [[|i [|j p]]|] eqn:Hh; try done;
    by rewrite (insertBefore_root _ _ _ _ _ _ Hh).
Qed.

Lemma initialize_empty_returns o b w :
  readSlot (urlBase o) = Some b -> queue w = [] -> firstScriptAtRoot (document w) = false ->
  initialize o w =
    (Return tt,
     {| _paq := Some (initTuples (withTrailingSlash b) o);
        document := withScript (newScript (withTrailingSlash b) o) (document w);
        location_href := location_href w |}).
Proof.
  intros Hb Hq Hr. rewrite (initialize_empty _ b) by done.
  unfold insertionOutcome. by rewrite Hr.
Qed.

Lemma get_length_last c s :
  String.get (String.length s) (String c s) = lastChar (String c s).
Proof.
  revert c. induction s as [|c' s IH]; intros c; [done|].
  exact (IH c').
Qed.

Lemma charAt_last s : charAt s (Z.of_nat (String.length s) - 1)%Z = lastChar s.
Proof.
  destruct s as [|c s]; [done|].
  unfold charAt. cbn [String.length].
  replace (Z.of_nat (S (String.length s)) - 1)%Z with (Z.of_nat (String.length s)) by lia.
  destruct (Z.ltb_spec (Z.of_nat (String.length s)) 0) as [|_]; [lia|].
  rewrite Nat2Z.id. apply get_length_last.
Qed.

Lemma lastChar_app s c : lastChar (s +:+ String c EmptyString) = Some c.
Proof.
  induction s as [|c' s IH]; [done|]. destruct s as [|c'' s]; [done|]. exact IH.
Qed.

Lemma lastChar_inv s c : lastChar s = Some c -> exists s', s = s' +:+ String c EmptyString.
Proof.
  induction s as [|c' s IH]; [done|]. destruct s as [|c'' s].
  - intros [= ->]. by exists EmptyString.
  - intros H. destruct (IH H) as [s' ->]. by exists (String c' s').
Qed.

(** [lastIsNotSlash] tells whether the string ends in a slash. *)
Lemma lastIsNotSlash_false s : lastIsNotSlash s = false <-> endsWithSlash s.
Proof.
  unfold lastIsNotSlash, endsWithSlash. rewrite charAt_last. split.
  - destruct (lastChar s) as [c|] eqn:Hc; [|done].
    destruct (Ascii.eqb_spec c "/") as [->|]; [|done]. intros _.
    by apply lastChar_inv.
  - intros [s' ->]. by rewrite lastChar_app.
Qed.

Lemma withTrailingSlash_slash s : endsWithSlash s -> withTrailingSlash s = s.
Proof. intros H. unfold withTrailingSlash. apply lastIsNotSlash_false in H. by rewrite H. Qed.

Lemma withTrailingSlash_no_slash s : ~ endsWithSlash s -> withTrailingSlash s = s +:+ "/".
Proof.
  intros H. unfold withTrailingSlash. destruct (lastIsNotSlash s) eqn:E; [done|].
  by apply lastIsNotSlash_false in E.
Qed.

Lemma withTrailingSlash_ends s : endsWithSlash (withTrailingSlash s).
Proof.
  unfold withTrailingSlash. destruct (lastIsNotSlash s) eqn:E.
  - by exists s.
  - by apply lastIsNotSlash_false.
Qed.

Lemma truthy_inv o : truthy o = true -> exists s, o = Some s /\ s <> "".
Proof.
  destruct o as [s|]; [|done]. simpl. destruct (String.eqb_spec s ""); [done|]. eauto.
Qed.

Lemma truthy_Some s : s <> "" -> truthy (Some s) = true.
Proof.
  intros Hs. unfold truthy. destruct (String.eqb_spec s ""); [done|reflexivity].
Qed.

(** ** Construction, initialisation and the queue *)

Section Ctor.
Variable defaultOptions : UserOptions.
Variable TRACK_TYPES : TrackTypes.

Local Abbreviation constructor := (constructor defaultOptions).
Local Abbreviation call := (call defaultOptions TRACK_TYPES).

Lemma constructor_falsy u w :
  truthy (readSlot (urlBase (spread defaultOptions u))) = false ->
  constructor u w = (Throw (Error "Matomo urlBase is required."), w).
Proof. intros H. unfold constructor. by rewrite H. Qed.

Lemma constructor_truthy u w :
  truthy (readSlot (urlBase (spread defaultOptions u))) = true ->
  constructor u w = initialize (spread defaultOptions u) w.
Proof. intros H. unfold constructor. by rewrite H. Qed.

Lemma initialize_append_only o w : queue w `prefix_of` queue (initialize o w).2.
Proof.
  destruct (readSlot (urlBase o)) as [b|] eqn:Hb.
  - destruct (queue w) as [|t q] eqn:Hq.
    + rewrite (initialize_empty _ b) by done. apply prefix_nil.
    + rewrite (initialize_nonempty _ b) by (by rewrite ?Hq). simpl. by rewrite Hq.
  - by rewrite initialize_undefined.
Qed.

Lemma track_append_only p w : queue w `prefix_of` queue (track p w).2.
Proof.
  destruct (default [] (data p)) as [|v d] eqn:Hd.
  - by rewrite track_empty.
  - destruct (data p) as [d'|] eqn:Hd'; simpl in Hd; [subst d'|done].
    destruct (_paq w) as [q|] eqn:Hq.
    + rewrite (track_nonempty _ (v :: d)) by (rewrite ?Hq; eauto).
      simpl. rewrite queue_pushed. by apply prefix_app_r.
    + by rewrite (track_undefined _ (v :: d)).
Qed.

Lemma initialize_keeps_queue o w :
  is_Some (_paq w) -> is_Some (_paq (initialize o w).2).
Proof.
  intros Hw. destruct (readSlot (urlBase o)) as [b|] eqn:Hb.
  - destruct (queue w) as [|t q] eqn:Hq.
    + rewrite (initialize_empty _ b) by done. simpl. eauto.
    + by rewrite (initialize_nonempty _ b) by (by rewrite ?Hq).
  - by rewrite initialize_undefined.
Qed.

Lemma track_keeps_queue p w : is_Some (_paq w) -> is_Some (_paq (track p w).2).
Proof.
  intros Hw. destruct (default [] (data p)) as [|v d] eqn:Hd.
  - by rewrite track_empty.
  - destruct (data p) as [d'|] eqn:Hd'; simpl in Hd; [subst d'|done].
    rewrite (track_nonempty _ (v :: d)) by done. simpl. eauto.
Qed.

Lemma push_append_only t w : queue w `prefix_of` queue (push t w).2.
Proof.
  destruct (_paq w) as [q|] eqn:Hq.
  - rewrite push_defined by (rewrite Hq; eauto). simpl. rewrite queue_pushed.
    by apply prefix_app_r.
  - by rewrite push_undefined.
Qed.

(** C10: whatever the call and however it ends, the queue it finds is a
    prefix of the queue it leaves. *)
Theorem call_append_only (c : Call) (w : Window) :
  queue w `prefix_of` queue (call c w).2.
Proof.
  destruct c as [u|o|p|p|p|p|p]; simpl.
  - unfold constructor.
    destruct (truthy (readSlot (urlBase (spread defaultOptions u)))); simpl;
      [apply initialize_append_only|done].
  - apply initialize_append_only.
  - apply track_append_only.
  - unfold trackEvent. destruct (truthy (category p) && truthy (action p));
      [apply track_append_only|done].
  - unfold trackSiteSearch. destruct (truthy (keyword p));
      [apply track_append_only|done].
  - apply push_append_only.
  - apply track_append_only.
Qed.

(** No call ever takes the queue away once it exists. *)
Lemma call_keeps_queue (c : Call) (w : Window) :
  is_Some (_paq w) -> is_Some (_paq (call c w).2).
Proof.
  intros Hw. destruct c as [u|o|p|p|p|p|p]; simpl.
  - unfold constructor.
    destruct (truthy (readSlot (urlBase (spread defaultOptions u)))); simpl;
      [by apply initialize_keeps_queue|done].
  - by apply initialize_keeps_queue.
  - by apply track_keeps_queue.
  - unfold trackEvent. destruct (truthy (category p) && truthy (action p));
      [by apply track_keeps_queue|done].
  - unfold trackSiteSearch. destruct (truthy (keyword p));
      [by apply track_keeps_queue|done].
  - unfold trackLink. rewrite push_defined by done. simpl. eauto.
  - by apply track_keeps_queue.
Qed.

End Ctor.

(** ** The tracking methods *)

Section Tracking.

Variable TRACK_TYPES : TrackTypes.

Local Abbreviation trackEvent := (trackEvent TRACK_TYPES).
Local Abbreviation trackSiteSearch := (trackSiteSearch TRACK_TYPES).
Local Abbreviation trackLink := (trackLink TRACK_TYPES).
Local Abbreviation eventTuple := (eventTuple TRACK_TYPES).

Lemma trackEvent_truthy p w :
  truthy (category p) = true -> truthy (action p) = true -> is_Some (_paq w) ->
  trackEvent p w = (Return tt, pushed (trackTuples (eventParams p) (eventTuple p) w) w).
Proof.
  intros Hc Ha Hw. unfold trackEvent. rewrite Hc, Ha. simpl.
  by rewrite (track_nonempty _ (eventTuple p)).
Qed.

Lemma trackEvent_falsy p w :
  truthy (category p) && truthy (action p) = false ->
  trackEvent p w = (Throw (Error "Error: category and action are required."), w).
Proof. intros H. unfold trackEvent. by rewrite H. Qed.

Lemma trackSiteSearch_falsy p w :
  truthy (keyword p) = false ->
  trackSiteSearch p w = (Throw (Error "Error: keyword is required."), w).
Proof. intros H. unfold trackSiteSearch. by rewrite H. Qed.

(** C1: a [track] call with a non-empty data tuple appends, in this
    order, one [setCustomDimension] tuple per entry of the
    custom-dimensions array (none when the parameter is missing, a
    boolean or an empty array), the [setCustomUrl] tuple with the
    resolved URL, the [setDocumentTitle] tuple with the resolved title,
    and the data tuple; the call returns and nothing else is appended. *)
Theorem track_appends_in_order
    (p : TrackParams) (d : Tuple) (q : list Tuple) (w : Window) :
  _paq w = Some q -> data p = Some d -> d <> [] ->
  exists w',
    track p w = (Return tt, w') /\
    document w' = document w /\
    _paq w' =
      Some
        (q ++
         match customDimensions (trackParams p) with
         | Some (DimArray l) =>
             map (fun c => [JString "setCustomDimension"; JNumber (id c);
                            JString (value c)]) l
         | _ => []
         end ++
         [[JString "setCustomUrl";
           JString (default (location_href w) (href (trackParams p)))];
          [JString "setDocumentTitle";
           JString (default (title (document w)) (documentTitle (trackParams p)))];
          d]).
Proof.
  intros Hw Hd Hne. eexists.
  split; [apply track_nonempty; [by rewrite Hw|done..]|].
  split; [reflexivity|]. rewrite paq_pushed. unfold queue. rewrite Hw. done.
Qed.

(** C6, amended: when category and action are both non-empty strings and
    no custom dimensions are supplied, [trackEvent] appends exactly three
    tuples: [setCustomUrl], [setDocumentTitle] and the event tuple, whose
    name and value are [undefined] when not supplied. *)
Theorem trackEvent_appends_three
    (p : TrackEventParams) (c a : string) (q : list Tuple) (w : Window) :
  _paq w = Some q ->
  category p = Some c -> c <> "" ->
  action p = Some a -> a <> "" ->
  customDimensions (eventParams p) = None ->
  exists w',
    trackEvent p w = (Return tt, w') /\
    document w' = document w /\
    _paq w' =
      Some
        (q ++
         [[JString "setCustomUrl";
           JString (default (location_href w) (href (eventParams p)))];
          [JString "setDocumentTitle";
           JString (default (title (document w)) (documentTitle (eventParams p)))];
          [JString (TRACK_EVENT TRACK_TYPES); JString c; JString a;
           match name p with Some n => JString n | None => JUndefined end;
           match eventValue p with Some v => JNumber v | None => JUndefined end]]).
Proof.
  intros Hw Hc Hc' Ha Ha' Hd. eexists. split.
  - apply trackEvent_truthy; [rewrite Hc|rewrite Ha|by rewrite Hw]; by apply truthy_Some.
  - split; [reflexivity|]. rewrite paq_pushed. unfold queue, trackTuples, eventTuple.
    by rewrite Hw, Hd, Hc, Ha.
Qed.

(** C7: [trackEvent] without a category or without an action, and
    [trackSiteSearch] without a keyword, throw their "required" error
    and leave the page, hence the queue, as it was. *)
Theorem missing_field_throws (w : Window) :
  (forall p : TrackEventParams,
      category p = None \/ action p = None ->
      trackEvent p w =
        (Throw (Error "Error: category and action are required."), w)) /\
  (forall p : TrackSiteSearchParams,
      keyword p = None ->
      trackSiteSearch p w = (Throw (Error "Error: keyword is required."), w)).
Proof.
  split.
  - intros p [H|H]; apply trackEvent_falsy; rewrite H; simpl; [done|].
    by rewrite andb_false_r.
  - intros p H. apply trackSiteSearch_falsy. by rewrite H.
Qed.

(** C8: a [track] call whose data tuple is empty (left out, or given as
    the empty array) returns without touching the page, whatever the
    title, URL and custom dimensions are. *)
Theorem track_empty_noop (p : TrackParams) (w : Window) :
  data p = None \/ data p = Some [] -> track p w = (Return tt, w).
Proof. intros [H|H]; apply track_empty; by rewrite H. Qed.

(** C9: on a page whose queue exists, as it does once a wrapper has been
    constructed, [trackLink] with an href and no link type returns
    normally and appends the single tuple [[LINK, href, 'link']],
    without any URL, title or dimension tuple. *)
Theorem trackLink_appends_one
    (p : TrackLinkParams) (h : string) (q : list Tuple) (w : Window) :
  _paq w = Some q -> linkHref p = Some h -> linkType p = None ->
  exists w',
    trackLink p w = (Return tt, w') /\
    document w' = document w /\
    _paq w' = Some (q ++ [[JString (TRACK_LINK TRACK_TYPES); JString h; JString "link"]]).
Proof.
  intros Hw Hh Ht. eexists. split.
  - unfold trackLink. apply push_defined. by rewrite Hw.
  - split; [reflexivity|]. rewrite paq_pushed. unfold queue. by rewrite Hw, Hh, Ht.
Qed.

End Tracking.

Section Construction.
Variable defaultOptions : UserOptions.

Local Abbreviation constructor := (constructor defaultOptions).
Local Abbreviation options u := (spread defaultOptions u).

Lemma constructor_empty u b w :
  readSlot (urlBase (options u)) = Some b -> b <> "" -> queue w = [] ->
  constructor u w =
    (insertionOutcome (document w),
     {| _paq := Some (initTuples (withTrailingSlash b) (options u));
        document := withScript (newScript (withTrailingSlash b) (options u)) (document w);
        location_href := location_href w |}).
Proof.
  intros Hb Hne Hq. rewrite constructor_truthy by (rewrite Hb; by apply truthy_Some).
  by apply initialize_empty.
Qed.

Lemma constructor_nonempty u b w :
  readSlot (urlBase (options u)) = Some b -> b <> "" -> queue w <> [] ->
  constructor u w = (Return tt, w).
Proof.
  intros Hb Hne Hq. rewrite constructor_truthy by (rewrite Hb; by apply truthy_Some).
  by apply (initialize_nonempty _ b).
Qed.

(** A wrapper instance only exists on a page whose queue is defined. *)
Lemma constructor_defines_queue u w w' :
  constructor u w = (Return tt, w') -> _paq w' = Some (queue w').
Proof.
  unfold constructor.
  destruct (truthy (readSlot (urlBase (options u)))) eqn:Hu; simpl; [|done].
  apply truthy_inv in Hu as (b & Hb & Hne).
  destruct (queue w) as [|t q] eqn:Hq.
  - rewrite (initialize_empty _ b) by done. by intros [= _ <-].
  - rewrite (initialize_nonempty _ b) by (by rewrite ?Hq). intros [= <-].
    revert Hq. unfold queue. by destruct (_paq w).
Qed.

(** C2: two constructions in a row on a page with an empty queue leave
    exactly the four initialisation tuples of the first one, in the
    order set-tracker-endpoint, set-site-id, enable-heartbeat-timer,
    enable-link-tracking: the second one returns and appends nothing,
    whether the first one returned or, its script insertion refused,
    threw after queueing the tuples.  A construction that finds the queue
    non-empty leaves the page as it is. *)
Theorem init_commands_pushed_once (u1 u2 : UserOptions) (b1 b2 : string) (w : Window) :
  readSlot (urlBase (options u1)) = Some b1 -> b1 <> "" ->
  readSlot (urlBase (options u2)) = Some b2 -> b2 <> "" ->
  (queue w = [] ->
   exists r1 w1 w2,
     constructor u1 w = (r1, w1) /\
     r1 = (if firstScriptAtRoot (document w)
           then Throw HierarchyRequestError else Return tt) /\
     constructor u2 w1 = (Return tt, w2) /\
     queue w2 =
       [[JString "setTrackerUrl";
         JString (orElse (readSlot (trackerUrl (options u1)))
                    (withTrailingSlash b1 +:+ "matomo.php"))];
        [JString "setSiteId"; default JUndefined (readSlot (siteId (options u1)))];
        [JString "enableHeartBeatTimer"];
        [JString "enableLinkTracking"]] /\
     queue w1 = queue w2) /\
  (queue w <> [] -> constructor u1 w = (Return tt, w)).
Proof.
  intros Hb1 Hn1 Hb2 Hn2. split.
  - intros Hq. eexists _, _, _. split; [by apply (constructor_empty _ b1)|].
    split; [reflexivity|].
    split; [by apply (constructor_nonempty _ b2)|]. done.
  - intros Hq. by apply (constructor_nonempty _ b1).
Qed.

(** C3, amended: construction throws the "urlBase is required" error,
    leaving the page untouched, when the merged options have no base URL
    or an empty one.  With a non-empty base URL it returns, except on a
    page whose queue is empty and whose first script element is a child of
    the document itself: there the DOM refuses the insertion and the
    construction throws [HierarchyRequestError], the four initialisation
    tuples being queued already. *)
Theorem constructor_requires_urlBase (u : UserOptions) (w : Window) :
  (readSlot (urlBase (options u)) = None \/ readSlot (urlBase (options u)) = Some "" ->
   constructor u w = (Throw (Error "Matomo urlBase is required."), w)) /\
  (forall b, readSlot (urlBase (options u)) = Some b -> b <> "" ->
   exists w',
     constructor u w =
       (if (length (queue w) =? 0) && firstScriptAtRoot (document w)
        then Throw HierarchyRequestError else Return tt, w') /\
     (queue w = [] -> length (queue w') = 4) /\
     (queue w <> [] -> w' = w)).
Proof.
  split.
  - intros [H|H]; apply constructor_falsy; by rewrite H.
  - intros b Hb Hne. destruct (queue w) as [|t q] eqn:Hq.
    + eexists. split; [by apply (constructor_empty _ b)|]. done.
    + exists w. split; [|done]. apply (constructor_nonempty _ b); [done..|]. by rewrite Hq.
Qed.

(** C4, amended: a construction that finds the queue empty creates a
    script element (type text/javascript, async, defer, src the script
    URL override or the slash-terminated base URL followed by matomo.js)
    and inserts it right in front of the first script element of the
    document, which becomes its next sibling, so that the new element
    is now the first script element, provided that script element lies
    below some element.  When the first script element is a child of the
    document itself the DOM refuses the insertion: the construction
    throws and the document stays as it is.  When the document has no
    script element, or the queue is not empty, the construction returns
    and the document is left as it is. *)
Theorem script_inserted_on_first_init (u : UserOptions) (b : string) (w : Window) :
  readSlot (urlBase (options u)) = Some b -> b <> "" ->
  (queue w <> [] -> constructor u w = (Return tt, w)) /\
  (queue w = [] -> getElementsByTagName "script" (document w) = [] ->
   exists w', constructor u w = (Return tt, w') /\ document w' = document w) /\
  (queue w = [] ->
   forall i, head (getElementsByTagName "script" (document w)) = Some [i] ->
   exists w', constructor u w = (Throw HierarchyRequestError, w') /\
              document w' = document w) /\
  (queue w = [] ->
   forall i j p, head (getElementsByTagName "script" (document w)) = Some (i :: j :: p) ->
   let new :=
     Elem "script"
       [("type", JString "text/javascript"); ("async", JBool true);
        ("defer", JBool true);
        ("src", JString (orElse (readSlot (srcUrl (options u)))
                           (withTrailingSlash b +:+ "matomo.js")))]
       [] in
   exists w',
     constructor u w = (Return tt, w') /\
     title (document w') = title (document w) /\
     nodes (document w') = insertAt new (i :: j :: p) (nodes (document w)) /\
     nodeAt (i :: j :: p) (nodes (document w')) = Some new /\
     head (getElementsByTagName "script" (document w')) = Some (i :: j :: p) /\
     exists ps cs,
       nodeAt (i :: j :: p) (nodes (document w)) = Some (Elem "script" ps cs) /\
       nodeAt (nextSibling (i :: j :: p)) (nodes (document w')) =
         Some (Elem "script" ps cs)).
Proof.
  intros Hb Hne. split; [intros Hq; by apply (constructor_nonempty _ b)|].
  split; [|split].
  - intros Hq Hs. eexists. split.
    + rewrite (constructor_empty _ b) by done.
      unfold insertionOutcome, firstScriptAtRoot. by rewrite Hs.
    + simpl. unfold withScript. by rewrite Hs.
  - intros Hq i Hi. eexists. split.
    + rewrite (constructor_empty _ b) by done.
      unfold insertionOutcome, firstScriptAtRoot. by rewrite Hi.
    + simpl. unfold withScript. by rewrite Hi.
  - intros Hq i j p Hp new. eexists. split.
    + rewrite (constructor_empty _ b) by done.
      unfold insertionOutcome, firstScriptAtRoot. by rewrite Hp.
    + simpl. unfold withScript. rewrite Hp. simpl. split; [done|]. split; [done|].
      destruct (nodeAt_pathsFrom "script" (i :: j :: p) (nodes (document w)))
        as (ps & cs & Hn); [by apply head_In|].
      destruct (nodeAt_insertAt
                  (newScript (withTrailingSlash b) (options u)) _ _ _ Hn) as [H1 H2].
      split; [exact H1|].
      split; [|by exists ps, cs].
      exact (head_getElementsByTagName_insertAt "script" _ _ _ Hp).
Qed.

(** C5: on first initialisation without URL overrides, the tracker
    endpoint queued is the slash-terminated base URL followed by
    matomo.php, and the script element put into the document has as its
    source the slash-terminated base URL followed by matomo.js, where a
    base URL ending in a slash is taken as it is and any other gets
    exactly one slash appended. *)
Theorem default_urls_one_separator (o : UserOptions) (b : string) (w : Window) :
  readSlot (urlBase o) = Some b ->
  readSlot (trackerUrl o) = None -> readSlot (srcUrl o) = None ->
  queue w = [] ->
  exists b' r w',
    ((exists s, b = s +:+ "/") -> b' = b) /\
    (~ (exists s, b = s +:+ "/") -> b' = b +:+ "/") /\
    initialize o w = (r, w') /\
    head (queue w') = Some [JString "setTrackerUrl"; JString (b' +:+ "matomo.php")] /\
    (forall i j p,
        head (getElementsByTagName "script" (document w)) = Some (i :: j :: p) ->
        r = Return tt /\
        nodeAt (i :: j :: p) (nodes (document w')) =
          Some (Elem "script"
                  [("type", JString "text/javascript"); ("async", JBool true);
                   ("defer", JBool true); ("src", JString (b' +:+ "matomo.js"))]
                  [])).
Proof.
  intros Hb Ht Hs Hq. exists (withTrailingSlash b). eexists _, _.
  split; [apply withTrailingSlash_slash|].
  split; [apply withTrailingSlash_no_slash|].
  split; [by apply initialize_empty|].
  split; [unfold initTuples; simpl; by rewrite Ht|].
  intros i j p Hp. unfold insertionOutcome, firstScriptAtRoot. rewrite Hp.
  split; [done|]. simpl. unfold withScript. rewrite Hp. simpl.
  destruct (nodeAt_pathsFrom "script" (i :: j :: p) (nodes (document w)))
    as (ps & cs & Hn); [by apply head_In|].
  destruct (nodeAt_insertAt (newScript (withTrailingSlash b) o) _ _ _ Hn) as [H1 _].
  etrans; [exact H1|]. unfold newScript, scriptElement. by rewrite Hs.
Qed.

End Construction.

(** ** The statements at sample inputs *)

Lemma track_appends_in_order_witness :
  exists w',
    track {| data := Some [JString "trackPageView"]; trackParams := Sample.twoDimensions |}
      Sample.busyPage = (Return tt, w') /\
    document w' = document Sample.busyPage /\
    _paq w' =
      Some [[JString "setSiteId"; JNumber 7];
            [JString "setCustomDimension"; JNumber 1; JString "a"];
            [JString "setCustomDimension"; JNumber 2; JString "b"];
            [JString "setCustomUrl"; JString "http://site.example/"];
            [JString "setDocumentTitle"; JString "Title"];
            [JString "trackPageView"]].
Proof.
  assert ([JString "trackPageView"] <> []) as Hne by discriminate.
  exact (track_appends_in_order
           {| data := Some [JString "trackPageView"]; trackParams := Sample.twoDimensions |}
           [JString "trackPageView"] [[JString "setSiteId"; JNumber 7]] Sample.busyPage
           eq_refl eq_refl Hne).
Defined.

Lemma init_commands_pushed_once_witness :
  exists r1 w1 w2,
    constructor Sample.defaults (Sample.options "http://x") Sample.freshPage = (r1, w1) /\
    r1 = Return tt /\
    constructor Sample.defaults (Sample.options "http://y/") w1 = (Return tt, w2) /\
    queue w2 =
      [[JString "setTrackerUrl"; JString "http://x/matomo.php"];
       [JString "setSiteId"; JNumber 1];
       [JString "enableHeartBeatTimer"];
       [JString "enableLinkTracking"]] /\
    queue w1 = queue w2.
Proof.
  assert ("http://x" <> "") as Hx by discriminate.
  assert ("http://y/" <> "") as Hy by discriminate.
  exact (proj1 (init_commands_pushed_once Sample.defaults
                  (Sample.options "http://x") (Sample.options "http://y/")
                  "http://x" "http://y/" Sample.freshPage eq_refl Hx eq_refl Hy)
               eq_refl).
Defined.

Lemma constructor_requires_urlBase_witness :
  constructor Sample.defaults Sample.noBase Sample.freshPage =
    (Throw (Error "Matomo urlBase is required."), Sample.freshPage) /\
  (exists w', constructor Sample.defaults (Sample.options "http://x") Sample.freshPage =
                (Return tt, w')) /\
  (exists w', constructor Sample.defaults (Sample.options "http://x") Sample.rootScriptPage =
                (Throw HierarchyRequestError, w')).
Proof.
  assert ("http://x" <> "") as Hx by discriminate.
  split; [|split].
  - exact (proj1 (constructor_requires_urlBase Sample.defaults Sample.noBase Sample.freshPage)
                 (or_introl eq_refl)).
  - destruct (proj2 (constructor_requires_urlBase Sample.defaults (Sample.options "http://x")
                       Sample.freshPage) "http://x" eq_refl Hx) as (w' & Hrun & _).
    exists w'. exact Hrun.
  - destruct (proj2 (constructor_requires_urlBase Sample.defaults (Sample.options "http://x")
                       Sample.rootScriptPage) "http://x" eq_refl Hx) as (w' & Hrun & _).
    exists w'. exact Hrun.
Defined.

Lemma script_inserted_on_first_init_witness :
  exists w',
    constructor Sample.defaults (Sample.options "http://x") Sample.freshPage = (Return tt, w') /\
    nodes (document w') =
      Sample.html
        [Elem "title" [] [Text "Home"];
         Elem "script"
           [("type", JString "text/javascript"); ("async", JBool true);
            ("defer", JBool true); ("src", JString "http://x/matomo.js")] [];
         Elem "script" [("src", JString "app.js")] []]
        [Elem "h1" [] [Text "Hello"]].
Proof.
  assert ("http://x" <> "") as Hx by discriminate.
  destruct (script_inserted_on_first_init Sample.defaults (Sample.options "http://x")
              "http://x" Sample.freshPage eq_refl Hx) as (_ & _ & _ & Hins).
  destruct (Hins eq_refl 0 0 [1] eq_refl) as (w' & Hrun & _ & Hnodes & _).
  exists w'. split; [exact Hrun|exact Hnodes].
Defined.

Lemma default_urls_one_separator_witness :
  exists b' w',
    b' = "http://x/" /\
    initialize (Sample.options "http://x") Sample.freshPage = (Return tt, w') /\
    head (queue w') = Some [JString "setTrackerUrl"; JString (b' +:+ "matomo.php")] /\
    nodeAt [0; 0; 1] (nodes (document w')) =
      Some (Elem "script"
              [("type", JString "text/javascript"); ("async", JBool true);
               ("defer", JBool true); ("src", JString (b' +:+ "matomo.js"))]
              []).
Proof.
  assert (~ (exists s, "http://x" = s +:+ "/")) as Hno.
  { intros [s Hs]. apply (f_equal lastChar) in Hs. revert Hs.
    change ("/") with (String "/"%char EmptyString). rewrite lastChar_app. discriminate. }
  destruct (default_urls_one_separator (Sample.options "http://x") "http://x"
              Sample.freshPage eq_refl eq_refl eq_refl eq_refl)
    as (b' & r & w' & _ & Hb' & Hrun & Hq & Hs).
  destruct (Hs 0 0 [1] eq_refl) as [-> Hsrc].
  exists b', w'. split; [exact (Hb' Hno)|]. split; [exact Hrun|]. split; [exact Hq|exact Hsrc].
Defined.

Lemma trackEvent_appends_three_witness :
  exists w',
    trackEvent Sample.trackTypes (Sample.event (Some "c") (Some "a")) Sample.busyPage =
      (Return tt, w') /\
    document w' = document Sample.busyPage /\
    _paq w' =
      Some [[JString "setSiteId"; JNumber 7];
            [JString "setCustomUrl"; JString "http://site.example/"];
            [JString "setDocumentTitle"; JString "Home"];
            [JString "trackEvent"; JString "c"; JString "a"; JUndefined; JUndefined]].
Proof.
  assert ("c" <> "") as Hc by discriminate.
  assert ("a" <> "") as Ha by discriminate.
  exact (trackEvent_appends_three Sample.trackTypes (Sample.event (Some "c") (Some "a"))
           "c" "a" [[JString "setSiteId"; JNumber 7]] Sample.busyPage
           eq_refl eq_refl Hc eq_refl Ha eq_refl).
Defined.

Lemma missing_field_throws_witness :
  trackEvent Sample.trackTypes (Sample.event (Some "c") None) Sample.busyPage =
    (Throw (Error "Error: category and action are required."), Sample.busyPage) /\
  trackSiteSearch Sample.trackTypes (Sample.search None) Sample.busyPage =
    (Throw (Error "Error: keyword is required."), Sample.busyPage).
Proof.
  split.
  - exact (proj1 (missing_field_throws Sample.trackTypes Sample.busyPage)
                 (Sample.event (Some "c") None) (or_intror eq_refl)).
  - exact (proj2 (missing_field_throws Sample.trackTypes Sample.busyPage)
                 (Sample.search None) eq_refl).
Defined.

Lemma track_empty_noop_witness :
  track {| data := Some []; trackParams := Sample.twoDimensions |} Sample.busyPage =
    (Return tt, Sample.busyPage).
Proof.
  exact (track_empty_noop {| data := Some []; trackParams := Sample.twoDimensions |}
           Sample.busyPage (or_intror eq_refl)).
Defined.

Lemma trackLink_appends_one_witness :
  exists w',
    trackLink Sample.trackTypes Sample.link Sample.busyPage = (Return tt, w') /\
    document w' = document Sample.busyPage /\
    _paq w' =
      Some [[JString "setSiteId"; JNumber 7];
            [JString "trackLink"; JString "http://out.example"; JString "link"]].
Proof.
  exact (trackLink_appends_one Sample.trackTypes Sample.link "http://out.example"
           [[JString "setSiteId"; JNumber 7]] Sample.busyPage eq_refl eq_refl eq_refl).
Defined.

(** C6, counterexample: a category given as the empty string is present,
    yet the call throws and appends nothing. *)
Lemma trackEvent_empty_category_throws :
  trackEvent Sample.trackTypes (Sample.event (Some "") (Some "a")) Sample.busyPage =
    (Throw (Error "Error: category and action are required."), Sample.busyPage) /\
  ~ trackEvent_present_claim Sample.trackTypes (Sample.event (Some "") (Some "a"))
      Sample.busyPage.
Proof.
  split; [reflexivity|].
  intros H. destruct (H _ "" "a" eq_refl eq_refl eq_refl eq_refl) as (w' & Hrun & _).
  discriminate Hrun.
Qed.

(** C3, counterexample: on a page with an empty queue whose document has
    a script element as its root, a construction with a non-empty base URL
    queues the four tuples and then throws. *)
Lemma construction_refused_on_root_script :
  (exists w',
     constructor Sample.defaults (Sample.options "http://x") Sample.rootScriptPage =
       (Throw HierarchyRequestError, w') /\
     length (queue w') = 4 /\
     document w' = document Sample.rootScriptPage) /\
  ~ construction_always_returns_claim Sample.defaults (Sample.options "http://x")
      Sample.rootScriptPage.
Proof.
  assert ("http://x" <> "") as Hx by discriminate.
  split; [eexists; split; [vm_compute; reflexivity|split; reflexivity]|].
  intros H. destruct (H "http://x" eq_refl Hx) as (w' & Hrun).
  vm_compute in Hrun. discriminate Hrun.
Qed.

(** C4, counterexample: a construction that finds a command in the queue
    leaves the document without the new script element, and so does a
    first construction on a document that has no script element. *)
Lemma script_not_always_ensured :
  (constructor Sample.defaults (Sample.options "http://x") Sample.busyPage =
     (Return tt, Sample.busyPage) /\
   ~ script_always_ensured_claim Sample.defaults (Sample.options "http://x") Sample.busyPage) /\
  (exists w',
     constructor Sample.defaults (Sample.options "http://x") Sample.scriptlessPage =
       (Return tt, w') /\
     document w' = document Sample.scriptlessPage) /\
  ~ script_always_ensured_claim Sample.defaults (Sample.options "http://x")
      Sample.scriptlessPage.
Proof.
  assert ("http://x" <> "") as Hx by discriminate.
  split; [split; [reflexivity|]|split; [eexists; split; [vm_compute; reflexivity|reflexivity]|]].
  - intros H. destruct (H "http://x" eq_refl Hx) as (w' & Hrun & Hn).
    vm_compute in Hrun. injection Hrun as <-. vm_compute in Hn. discriminate Hn.
  - intros H. destruct (H "http://x" eq_refl Hx) as (w' & Hrun & Hn).
    vm_compute in Hrun. injection Hrun as <-. vm_compute in Hn. discriminate Hn.
Qed.

(** * Further properties of the wrapper *)

Lemma falsy_iff o : truthy o = false <-> o = None \/ o = Some "".
Proof.
  destruct o as [s|]; simpl; [|by split; [left|]].
  destruct (String.eqb_spec s "") as [->|Hs]; simpl; split; try done.
  - by right.
  - intros [H|[= H]]; done.
Qed.

(** How a [track] call can end. *)
Lemma track_outcome p w :
  (exists ts, is_Some (_paq w) /\ track p w = (Return tt, pushed ts w)) \/
  track p w = (Return tt, w) \/
  track p w = (Throw TypeError, w).
Proof.
  destruct (default [] (data p)) as [|v d] eqn:Hd.
  - right; left. by apply track_empty.
  - destruct (data p) as [d'|] eqn:Hd'; simpl in Hd; [subst d'|done].
    destruct (_paq w) as [q|] eqn:Hq.
    + left. eexists. split; [eauto|]. apply (track_nonempty _ (v :: d)); [|done..].
      rewrite Hq; eauto.
    + right; right. by apply (track_undefined _ (v :: d)).
Qed.

Lemma track_keeps_document p w :
  document (track p w).2 = document w /\ location_href (track p w).2 = location_href w.
Proof. by destruct (track_outcome p w) as [(ts & _ & ->)|[->| ->]]. Qed.

Lemma track_no_Error p w m w' : track p w <> (Throw (Error m), w').
Proof. by destruct (track_outcome p w) as [(ts & _ & ->)|[->| ->]]. Qed.

Lemma push_keeps_document t w :
  document (push t w).2 = document w /\ location_href (push t w).2 = location_href w.
Proof. unfold push. by destruct (_paq w). Qed.

Lemma withScript_title new d : title (withScript new d) = title d.
Proof. unfold withScript. by destruct (head _) as [[|i [|j p]]|]. Qed.

Lemma initialize_keeps_title o w :
  title (document (initialize o w).2) = title (document w) /\
  location_href (initialize o w).2 = location_href w.
Proof.
  destruct (readSlot (urlBase o)) as [b|] eqn:Hb.
  - destruct (queue w) as [|t q] eqn:Hq.
    + rewrite (initialize_empty _ b) by done. simpl. by rewrite withScript_title.
    + by rewrite (initialize_nonempty _ b) by (by rewrite ?Hq).
  - by rewrite initialize_undefined.
Qed.

Lemma initialize_nonempty_same o w : queue w <> [] -> (initialize o w).2 = w.
Proof.
  intros Hq. destruct (readSlot (urlBase o)) as [b|] eqn:Hb.
  - by rewrite (initialize_nonempty _ b).
  - by rewrite initialize_undefined.
Qed.

(** Tag counts under [insertAt]. *)
Lemma length_pathsFrom_index tag i j l :
  length (pathsFrom tag i l) = length (pathsFrom tag j l).
Proof.
  revert i j. induction l as [|c l IH]; intros i j; simpl; [done|].
  rewrite !length_app, !length_map. f_equal. apply IH.
Qed.

Lemma length_pathsFrom_app tag i l1 l2 :
  length (pathsFrom tag i (l1 ++ l2)) =
  length (pathsFrom tag i l1) + length (pathsFrom tag i l2).
Proof.
  revert i. induction l1 as [|c l1 IH]; intros i; simpl; [done|].
  rewrite !length_app, IH, (length_pathsFrom_index tag (S i) i l2).
  by rewrite Nat.add_assoc.
Qed.

Lemma length_pathsFrom_insertAt tag new p :
  forall l i n,
    nodeAt p l = Some n ->
    length (pathsFrom tag i (insertAt new p l)) =
    length (pathsOfNode tag new) + length (pathsFrom tag i l).
Proof.
  unfold Path.
  induction p as [|j p IH]; intros l i n H; [done|]. destruct p as [|k p].
  - simpl in *. rewrite <- (take_drop j l) at 3.
    rewrite !length_pathsFrom_app. simpl.
    rewrite !length_app, !length_map.
    rewrite (length_pathsFrom_index tag (S i) i). apply Nat.add_shuffle3.
  - change (nodeAt (j :: k :: p) l) with
      (match l !! j with Some (Elem _ _ cs) => nodeAt (k :: p) cs | _ => None end) in H.
    change (insertAt new (j :: k :: p) l) with
      (match l !! j with
       | Some (Elem t ps cs) => <[j := Elem t ps (insertAt new (k :: p) cs)]> l
       | _ => l
       end).
    destruct (l !! j) as [[s|t ps cs]|] eqn:Hj; try done.
    pose proof (lookup_lt_Some _ _ _ Hj) as Hlt.
    rewrite insert_take_drop by done.
    rewrite <- (take_drop_middle l j _ Hj) at 3.
    rewrite !length_pathsFrom_app. cbn [pathsFrom].
    rewrite !length_app, !length_map, !pathsOfNode_Elem, !length_app.
    rewrite (IH _ 0 _ H). lia.
Qed.

Section MoreTracking.

Variable TRACK_TYPES : TrackTypes.
Variable Number : option string -> Z.

Local Abbreviation trackEvent := (trackEvent TRACK_TYPES).
Local Abbreviation trackSiteSearch := (trackSiteSearch TRACK_TYPES).
Local Abbreviation trackLink := (trackLink TRACK_TYPES).
Local Abbreviation trackPageView := (trackPageView TRACK_TYPES).
Local Abbreviation clickListener := (clickListener TRACK_TYPES Number).

(** X1: on a page whose queue exists, [trackPageView] always returns; it
    appends the dimension tuples of its parameters, the [setCustomUrl] and
    [setDocumentTitle] tuples and the one-element tuple [[VIEW]], and
    leaves the document and the location alone. *)
Theorem trackPageView_appends (p : TrackPageViewParams) (q : list Tuple) (w : Window) :
  _paq w = Some q ->
  exists w',
    trackPageView p w = (Return tt, w') /\
    document w' = document w /\
    location_href w' = location_href w /\
    _paq w' =
      Some
        (q ++
         match customDimensions p with
         | Some (DimArray l) =>
             map (fun c => [JString "setCustomDimension"; JNumber (id c);
                            JString (value c)]) l
         | _ => []
         end ++
         [[JString "setCustomUrl"; JString (default (location_href w) (href p))];
          [JString "setDocumentTitle";
           JString (default (title (document w)) (documentTitle p))];
          [JString (TRACK_VIEW TRACK_TYPES)]]).
Proof.
  intros Hw. eexists. split.
  - unfold trackPageView. apply track_nonempty; [by rewrite Hw|done..].
  - repeat split. rewrite paq_pushed. unfold queue. by rewrite Hw.
Qed.

(** X2: on a page whose queue exists, [trackSiteSearch] with a non-empty
    keyword returns and appends the dimension tuples, the [setCustomUrl]
    and [setDocumentTitle] tuples and [[SEARCH, keyword, category, count]],
    where a category or count left out is queued as [undefined]. *)
Theorem trackSiteSearch_appends
    (p : TrackSiteSearchParams) (k : string) (q : list Tuple) (w : Window) :
  _paq w = Some q -> keyword p = Some k -> k <> "" ->
  exists w',
    trackSiteSearch p w = (Return tt, w') /\
    document w' = document w /\
    _paq w' =
      Some
        (q ++
         match customDimensions (searchParams p) with
         | Some (DimArray l) =>
             map (fun c => [JString "setCustomDimension"; JNumber (id c);
                            JString (value c)]) l
         | _ => []
         end ++
         [[JString "setCustomUrl";
           JString (default (location_href w) (href (searchParams p)))];
          [JString "setDocumentTitle";
           JString (default (title (document w)) (documentTitle (searchParams p)))];
          [JString (TRACK_SEARCH TRACK_TYPES); JString k;
           match searchCategory p with Some c => JString c | None => JUndefined end;
           match count p with Some n => JNumber n | None => JUndefined end]]).
Proof.
  intros Hw Hk Hne. eexists. split.
  - unfold trackSiteSearch. rewrite Hk, truthy_Some by done.
    apply track_nonempty; [by rewrite Hw|done..].
  - split; [reflexivity|]. rewrite paq_pushed. unfold queue. by rewrite Hw.
Qed.

(** X3: [trackEvent] ends with its "category and action are required"
    error exactly when the category or the action is missing or the empty
    string, and [trackSiteSearch] with its "keyword is required" error
    exactly when the keyword is; the page is then left as it was. *)
Theorem required_field_errors_iff (w : Window) :
  (forall (p : TrackEventParams) (w' : Window),
      trackEvent p w =
        (Throw (Error "Error: category and action are required."), w') <->
      w' = w /\
      (category p = None \/ category p = Some "" \/
       action p = None \/ action p = Some "")) /\
  (forall (p : TrackSiteSearchParams) (w' : Window),
      trackSiteSearch p w = (Throw (Error "Error: keyword is required."), w') <->
      w' = w /\ (keyword p = None \/ keyword p = Some "")).
Proof.
  split; intros p w'.
  - unfold trackEvent.
    destruct (truthy (category p)) eqn:Hc; [destruct (truthy (action p)) eqn:Ha|]; simpl.
    + split; [intros H; by apply track_no_Error in H|].
      intros [_ [H|[H|[H|H]]]]; rewrite H in *; done.
    + apply falsy_iff in Ha. split; [intros [= <-]|intros [-> _]; done].
      split; [done|]. destruct Ha; auto.
    + apply falsy_iff in Hc. split; [intros [= <-]|intros [-> _]; done].
      split; [done|]. destruct Hc; auto.
  - unfold trackSiteSearch. destruct (truthy (keyword p)) eqn:Hk; simpl.
    + split; [intros H; by apply track_no_Error in H|].
      intros [_ [H|H]]; rewrite H in *; done.
    + apply falsy_iff in Hk. split; [intros [= <-]|intros [-> _]; done]. done.
Qed.

(** X4: on a page whose queue exists, [trackEvent] with a non-empty
    category and action and an array of N custom dimensions appends N + 3
    tuples: the N [setCustomDimension] tuples in the array's order, then
    [setCustomUrl], [setDocumentTitle] and the event tuple. *)
Theorem trackEvent_with_dimensions
    (p : TrackEventParams) (c a : string) (l : list CustomDimension)
    (q : list Tuple) (w : Window) :
  _paq w = Some q ->
  category p = Some c -> c <> "" ->
  action p = Some a -> a <> "" ->
  customDimensions (eventParams p) = Some (DimArray l) ->
  exists w',
    trackEvent p w = (Return tt, w') /\
    length (queue w') = length q + length l + 3 /\
    _paq w' =
      Some
        (q ++
         map (fun c => [JString "setCustomDimension"; JNumber (id c); JString (value c)]) l ++
         [[JString "setCustomUrl";
           JString (default (location_href w) (href (eventParams p)))];
          [JString "setDocumentTitle";
           JString (default (title (document w)) (documentTitle (eventParams p)))];
          [JString (TRACK_EVENT TRACK_TYPES); JString c; JString a;
           match name p with Some n => JString n | None => JUndefined end;
           match eventValue p with Some v => JNumber v | None => JUndefined end]]).
Proof.
  intros Hw Hc Hc' Ha Ha' Hd. eexists. split.
  - apply trackEvent_truthy; [rewrite Hc|rewrite Ha|by rewrite Hw]; by apply truthy_Some.
  - rewrite queue_pushed, paq_pushed. unfold queue, trackTuples, dimensionTuples, eventTuple.
    rewrite Hw, Hd, Hc, Ha. simpl. split; [|done].
    rewrite !length_app, length_map. simpl. lia.
Qed.

(** X5: [trackLink] validates nothing: on a page whose queue exists it
    returns for every parameter object and appends exactly one tuple, with
    [undefined] for a missing href and the given link type taken as it is
    (only a missing one becomes ['link']). *)
Theorem trackLink_never_validates (p : TrackLinkParams) (q : list Tuple) (w : Window) :
  _paq w = Some q ->
  exists w',
    trackLink p w = (Return tt, w') /\
    document w' = document w /\
    _paq w' =
      Some
        (q ++
         [[JString (TRACK_LINK TRACK_TYPES);
           match linkHref p with Some h => JString h | None => JUndefined end;
           match linkType p with Some t => JString t | None => JString "link" end]]).
Proof.
  intros Hw. eexists. split.
  - unfold trackLink. apply push_defined. by rewrite Hw.
  - split; [reflexivity|]. rewrite paq_pushed. unfold queue. rewrite Hw.
    by destruct (linkType p).
Qed.

(** X6: while [window._paq] is undefined, every tracking method that has
    something to push throws a [TypeError] at its first push and leaves
    the page as it was; the required-field checks still come first. *)
Theorem tracking_without_queue (w : Window) :
  _paq w = None ->
  (forall p d, data p = Some d -> d <> [] -> track p w = (Throw TypeError, w)) /\
  (forall p, trackPageView p w = (Throw TypeError, w)) /\
  (forall p, trackLink p w = (Throw TypeError, w)) /\
  (forall p, truthy (category p) = true -> truthy (action p) = true ->
             trackEvent p w = (Throw TypeError, w)) /\
  (forall p, truthy (keyword p) = true -> trackSiteSearch p w = (Throw TypeError, w)).
Proof.
  intros Hw. repeat split.
  - intros p d Hd Hne. by apply (track_undefined _ d).
  - intros p. unfold trackPageView. by apply (track_undefined _ [JString (TRACK_VIEW TRACK_TYPES)]).
  - intros p. unfold trackLink. by apply push_undefined.
  - intros p Hc Ha. unfold trackEvent. rewrite Hc, Ha. simpl.
    by eapply track_undefined.
  - intros p Hk. unfold trackSiteSearch. rewrite Hk. by eapply track_undefined.
Qed.

(** X7: a click on an element whose [data-matomo-category] and
    [data-matomo-action] are both non-empty queues an event under the
    page's own URL and title, without dimension tuples; its value is the
    number [Number] makes of [data-matomo-value], never [undefined]. *)
Theorem clickListener_tracks
    (d : Dataset) (c a : string) (q : list Tuple) (w : Window) :
  _paq w = Some q ->
  matomoCategory d = Some c -> c <> "" ->
  matomoAction d = Some a -> a <> "" ->
  exists w',
    clickListener d w = (Return tt, w') /\
    document w' = document w /\
    _paq w' =
      Some
        (q ++
         [[JString "setCustomUrl"; JString (location_href w)];
          [JString "setDocumentTitle"; JString (title (document w))];
          [JString (TRACK_EVENT TRACK_TYPES); JString c; JString a;
           match matomoName d with Some n => JString n | None => JUndefined end;
           JNumber (Number (matomoValue d))]]).
Proof.
  intros Hw Hc Hc' Ha Ha'. eexists. split.
  - unfold clickListener. rewrite Hc, Ha, !truthy_Some by done. simpl.
    apply trackEvent_truthy; simpl; [by apply truthy_Some..|by rewrite Hw].
  - split; [reflexivity|]. rewrite paq_pushed. unfold queue. by rewrite Hw.
Qed.

(** X8: a click on an element whose category or action attribute is
    missing or empty throws the listener's own "data-matomo-category and
    data-matomo-action are required" error and leaves the page as it was;
    the listener never ends with [trackEvent]'s "category and action are
    required" error, whatever the element carries. *)
Theorem clickListener_errors (d : Dataset) (w : Window) :
  (matomoCategory d = None \/ matomoCategory d = Some "" \/
   matomoAction d = None \/ matomoAction d = Some "" ->
   clickListener d w =
     (Throw (Error "Error: data-matomo-category and data-matomo-action are required."), w)) /\
  (forall w',
      clickListener d w <>
        (Throw (Error "Error: category and action are required."), w')).
Proof.
  unfold clickListener. split.
  - intros H.
    assert (truthy (matomoCategory d) && truthy (matomoAction d) = false) as ->; [|done].
    destruct H as [H|[H|[H|H]]]; rewrite H; simpl; by rewrite ?andb_false_r.
  - intros w'.
    destruct (truthy (matomoCategory d)) eqn:Hc;
      [destruct (truthy (matomoAction d)) eqn:Ha|]; simpl; try done.
    unfold trackEvent. simpl. rewrite Hc, Ha. simpl. apply track_no_Error.
Qed.

End MoreTracking.

Section MoreConstruction.

Variable defaultOptions : UserOptions.
Variable TRACK_TYPES : TrackTypes.

Local Abbreviation constructor := (constructor defaultOptions).
Local Abbreviation options u := (spread defaultOptions u).
Local Abbreviation call := (call defaultOptions TRACK_TYPES).
Local Abbreviation step := (step defaultOptions TRACK_TYPES).

Lemma constructor_leaves_nonempty u w w1 :
  constructor u w = (Return tt, w1) -> queue w1 <> [].
Proof.
  unfold constructor.
  destruct (truthy (readSlot (urlBase (options u)))) eqn:Hu; simpl; [|done].
  apply truthy_inv in Hu as (b & Hb & Hne).
  destruct (queue w) as [|t q] eqn:Hq.
  - rewrite (initialize_empty _ b) by done. by intros [= _ <-].
  - rewrite (initialize_nonempty _ b) by (by rewrite ?Hq). intros [= <-]. by rewrite Hq.
Qed.

Lemma call_prefix c w : queue w `prefix_of` queue (call c w).2.
Proof.
  destruct c as [u|o|p|p|p|p|p]; simpl.
  - unfold constructor.
    destruct (truthy (readSlot (urlBase (options u)))); simpl;
      [apply initialize_append_only|done].
  - apply initialize_append_only.
  - apply track_append_only.
  - unfold trackEvent. destruct (truthy (category p) && truthy (action p));
      [apply track_append_only|done].
  - unfold trackSiteSearch. destruct (truthy (keyword p));
      [apply track_append_only|done].
  - apply push_append_only.
  - apply track_append_only.
Qed.

Lemma call_keeps_title c w :
  title (document (call c w).2) = title (document w) /\
  location_href (call c w).2 = location_href w.
Proof.
  destruct c as [u|o|p|p|p|p|p]; simpl.
  - unfold constructor.
    destruct (truthy (readSlot (urlBase (options u)))); simpl;
      [apply initialize_keeps_title|done].
  - apply initialize_keeps_title.
  - destruct (track_keeps_document p w) as [-> ->]. done.
  - unfold trackEvent. destruct (truthy (category p) && truthy (action p)); [|done].
    destruct (track_keeps_document
                {| data := Some [JString (TRACK_EVENT TRACK_TYPES); ofString (category p);
                                 ofString (action p); ofString (name p);
                                 ofNumber (eventValue p)];
                   trackParams := eventParams p |} w) as [-> ->]. done.
  - unfold trackSiteSearch. destruct (truthy (keyword p)); [|done].
    destruct (track_keeps_document
                {| data := Some [JString (TRACK_SEARCH TRACK_TYPES); ofString (keyword p);
                                 ofString (searchCategory p); ofNumber (count p)];
                   trackParams := searchParams p |} w) as [-> ->]. done.
  - unfold trackLink. destruct (push_keeps_document
      [JString (TRACK_LINK TRACK_TYPES); ofString (linkHref p);
       JString (default "link" (linkType p))] w) as [-> ->]. done.
  - unfold trackPageView.
    destruct (track_keeps_document
                {| data := Some [JString (TRACK_VIEW TRACK_TYPES)]; trackParams := p |} w)
      as [-> ->]. done.
Qed.

Lemma call_nonempty_keeps_document c w :
  queue w <> [] -> document (call c w).2 = document w.
Proof.
  intros Hq. destruct c as [u|o|p|p|p|p|p]; simpl.
  - unfold constructor.
    destruct (truthy (readSlot (urlBase (options u)))); simpl; [|done].
    by rewrite initialize_nonempty_same.
  - by rewrite initialize_nonempty_same.
  - apply track_keeps_document.
  - unfold trackEvent. destruct (truthy (category p) && truthy (action p)); [|done].
    apply track_keeps_document.
  - unfold trackSiteSearch. destruct (truthy (keyword p)); [|done].
    apply track_keeps_document.
  - apply push_keeps_document.
  - apply track_keeps_document.
Qed.

(** X9: once a construction has succeeded, a further construction with any
    options that carry a non-empty base URL returns and changes nothing on
    the page: no tuple is queued and no second script element inserted. *)
Theorem second_construction_noop (u u' : UserOptions) (b' : string) (w w1 : Window) :
  constructor u w = (Return tt, w1) ->
  readSlot (urlBase (options u')) = Some b' -> b' <> "" ->
  constructor u' w1 = (Return tt, w1).
Proof.
  intros Hrun Hb Hne. apply (constructor_nonempty _ _ b'); [done..|].
  by apply (constructor_leaves_nonempty u w).
Qed.

(** X10: over any sequence of calls into the wrapper, returning or
    throwing, the queue only grows at its end, a queue that exists keeps
    existing, and the document title and the location stay the same. *)
Theorem queue_grows_over_time (w w' : Window) :
  rtc step w w' ->
  queue w `prefix_of` queue w' /\
  (is_Some (_paq w) -> is_Some (_paq w')) /\
  title (document w') = title (document w) /\
  location_href w' = location_href w.
Proof.
  induction 1 as [w|w w1 w2 [c ->] _ (IH1 & IH2 & IH3 & IH4)]; [done|].
  destruct (call_keeps_title c w) as [Ht Hl].
  split; [etrans; [apply (call_prefix c)|done]|].
  split; [intros Hw; by apply IH2, call_keeps_queue|].
  split; congruence.
Qed.

(** X11: after a successful construction no later call, in any number and
    order, changes the document: over the life of a page the wrapper
    inserts its script element at most once. *)
Theorem script_injected_once (u : UserOptions) (w w1 w2 : Window) :
  constructor u w = (Return tt, w1) ->
  rtc step w1 w2 ->
  document w2 = document w1.
Proof.
  intros Hrun Hsteps. apply constructor_leaves_nonempty in Hrun.
  induction Hsteps as [w1|w1 w2 w3 [c ->] _ IH]; [done|].
  rewrite IH.
  - by apply call_nonempty_keeps_document.
  - intros Hq. destruct (call_prefix c w1) as [k Hk]. rewrite Hq in Hk.
    by destruct (queue w1).
Qed.

(** X12: non-empty [trackerUrl] and [srcUrl] overrides are used as they
    are on first initialisation, whatever the base URL: the first tuple is
    [[setTrackerUrl, trackerUrl]], and the script element put in front of
    a first script element that lies below some element has [srcUrl] as
    its source. *)
Theorem url_overrides_used (o : UserOptions) (b t s : string) (w : Window) :
  readSlot (urlBase o) = Some b ->
  readSlot (trackerUrl o) = Some t -> t <> "" ->
  readSlot (srcUrl o) = Some s -> s <> "" ->
  queue w = [] ->
  exists r w',
    initialize o w = (r, w') /\
    head (queue w') = Some [JString "setTrackerUrl"; JString t] /\
    (forall i j p,
        head (getElementsByTagName "script" (document w)) = Some (i :: j :: p) ->
        r = Return tt /\
        nodeAt (i :: j :: p) (nodes (document w')) =
          Some (Elem "script"
                  [("type", JString "text/javascript"); ("async", JBool true);
                   ("defer", JBool true); ("src", JString s)]
                  [])).
Proof.
  intros Hb Ht Hne Hs Hne' Hq. eexists _, _. split; [by apply initialize_empty|].
  split.
  - unfold initTuples. simpl. rewrite Ht. simpl. by destruct (String.eqb_spec t "").
  - intros i j p Hp. unfold insertionOutcome, firstScriptAtRoot. rewrite Hp.
    split; [done|]. simpl. unfold withScript. rewrite Hp. simpl.
    destruct (nodeAt_pathsFrom "script" (i :: j :: p) (nodes (document w)))
      as (ps & cs & Hn); [by apply head_In|].
    destruct (nodeAt_insertAt (newScript (withTrailingSlash b) o) _ _ _ Hn) as [H1 _].
    etrans; [exact H1|]. unfold newScript, scriptElement. rewrite Hs. simpl.
    by destruct (String.eqb_spec s "").
Qed.

(** X13: overrides given as the empty string count as not given:
    initialisation then does exactly what it does without them. *)
Theorem empty_overrides_fall_back (o : UserOptions) (w : Window) :
  readSlot (trackerUrl o) = Some "" -> readSlot (srcUrl o) = Some "" ->
  initialize o w =
  initialize {| urlBase := urlBase o; siteId := siteId o;
                trackerUrl := Absent; srcUrl := Absent |} w.
Proof.
  intros Ht Hs. destruct (readSlot (urlBase o)) as [b|] eqn:Hb.
  - destruct (queue w) as [|x q] eqn:Hq.
    + rewrite !(initialize_empty _ b) by done.
      unfold initTuples, newScript. simpl. by rewrite Ht, Hs.
    + by rewrite !(initialize_nonempty _ b) by (by rewrite ?Hq).
  - by rewrite !initialize_undefined.
Qed.

(** X14: the site id is not checked: a construction whose merged options
    have none ends, on an empty queue, as any first construction does
    (it returns, or throws where the DOM refuses the script insertion),
    with [[setSiteId, undefined]] queued as the second tuple. *)
Theorem siteId_not_validated (u : UserOptions) (b : string) (w : Window) :
  readSlot (urlBase (options u)) = Some b -> b <> "" ->
  readSlot (siteId (options u)) = None ->
  queue w = [] ->
  exists r w',
    constructor u w = (r, w') /\
    r = (if firstScriptAtRoot (document w)
         then Throw HierarchyRequestError else Return tt) /\
    queue w' !! 1 = Some [JString "setSiteId"; JUndefined].
Proof.
  intros Hb Hne Hs Hq. eexists _, _. split; [by apply (constructor_empty _ _ b)|].
  split; [reflexivity|]. unfold initTuples. by rewrite Hs.
Qed.

(** X15: a base URL and the same base URL with one slash appended are
    interchangeable: initialisation leaves the same page for both. *)
Theorem trailing_slash_same_page (o : UserOptions) (b : string) (w : Window) :
  ~ (exists s, b = s +:+ "/") ->
  initialize {| urlBase := Present b; siteId := siteId o;
                trackerUrl := trackerUrl o; srcUrl := srcUrl o |} w =
  initialize {| urlBase := Present (b +:+ "/"); siteId := siteId o;
                trackerUrl := trackerUrl o; srcUrl := srcUrl o |} w.
Proof.
  intros Hb. unfold initialize. cbn [readSlot urlBase].
  rewrite (withTrailingSlash_no_slash b) by done.
  rewrite (withTrailingSlash_slash (b +:+ "/")) by (by exists b).
  done.
Qed.

(** X16: in the merge of the options, a [urlBase] written as [undefined]
    hides the default, so the construction throws the "urlBase is
    required" error whatever the defaults are; a [urlBase] not written at
    all lets a non-empty default through: the construction then passes
    the check and ends as a construction with that base URL does, by
    returning, or by the DOM's error where the script insertion is
    refused. *)
Theorem undefined_urlBase_hides_default (u : UserOptions) (w : Window) :
  (urlBase u = Undefined ->
   constructor u w = (Throw (Error "Matomo urlBase is required."), w)) /\
  (forall b, urlBase u = Absent -> readSlot (urlBase defaultOptions) = Some b -> b <> "" ->
   exists w',
     constructor u w =
       (if (length (queue w) =? 0) && firstScriptAtRoot (document w)
        then Throw HierarchyRequestError else Return tt, w')).
Proof.
  split.
  - intros Hu. apply constructor_falsy. simpl. by rewrite Hu.
  - intros b Hu Hb Hne.
    assert (readSlot (urlBase (options u)) = Some b) as Hb' by (simpl; by rewrite Hu).
    destruct (queue w) as [|t q] eqn:Hq.
    + eexists. by apply (constructor_empty _ _ b).
    + eexists. apply (constructor_nonempty _ _ b); [done..|]. by rewrite Hq.
Qed.

(** X17: the first construction on a document whose first script element
    lies below some element adds exactly one script element and no element
    of any other name; where the first script element is a child of the
    document itself the construction throws and adds no element at all. *)
Theorem one_script_element_added (u : UserOptions) (b : string) (w : Window) :
  readSlot (urlBase (options u)) = Some b -> b <> "" ->
  queue w = [] ->
  (forall i j p,
      head (getElementsByTagName "script" (document w)) = Some (i :: j :: p) ->
      exists w',
        constructor u w = (Return tt, w') /\
        countTag "script" (nodes (document w')) =
          S (countTag "script" (nodes (document w))) /\
        (forall tag, tag <> "script" ->
           countTag tag (nodes (document w')) = countTag tag (nodes (document w)))) /\
  (forall i,
      head (getElementsByTagName "script" (document w)) = Some [i] ->
      exists w',
        constructor u w = (Throw HierarchyRequestError, w') /\
        (forall tag, countTag tag (nodes (document w')) = countTag tag (nodes (document w)))).
Proof.
  intros Hb Hne Hq. split.
  - intros i j p Hp. eexists. split.
    + rewrite (constructor_empty _ _ b) by done.
      unfold insertionOutcome, firstScriptAtRoot. by rewrite Hp.
    + simpl. unfold withScript. rewrite Hp. simpl. unfold countTag.
      destruct (nodeAt_pathsFrom "script" (i :: j :: p) (nodes (document w)))
        as (ps & cs & Hn); [by apply head_In|].
      split.
      * etrans; [exact (length_pathsFrom_insertAt _ _ _ _ _ _ Hn)|]. reflexivity.
      * intros tag Htag. etrans; [exact (length_pathsFrom_insertAt _ _ _ _ _ _ Hn)|].
        unfold newScript, scriptElement. rewrite pathsOfNode_Elem.
        destruct (String.eqb_spec "script" tag) as [<-|]; done.
  - intros i Hi. eexists. split.
    + rewrite (constructor_empty _ _ b) by done.
      unfold insertionOutcome, firstScriptAtRoot. by rewrite Hi.
    + intros tag. simpl. unfold withScript. by rewrite Hi.
Qed.

End MoreConstruction.

(** ** The further properties at sample inputs *)

Lemma trackPageView_appends_witness :
  exists w',
    trackPageView Sample.trackTypes Sample.twoDimensions Sample.busyPage = (Return tt, w') /\
    document w' = document Sample.busyPage /\
    location_href w' = location_href Sample.busyPage /\
    _paq w' =
      Some [[JString "setSiteId"; JNumber 7];
            [JString "setCustomDimension"; JNumber 1; JString "a"];
            [JString "setCustomDimension"; JNumber 2; JString "b"];
            [JString "setCustomUrl"; JString "http://site.example/"];
            [JString "setDocumentTitle"; JString "Title"];
            [JString "trackPageView"]].
Proof.
  exact (trackPageView_appends Sample.trackTypes Sample.twoDimensions
           [[JString "setSiteId"; JNumber 7]] Sample.busyPage eq_refl).
Defined.

Lemma trackSiteSearch_appends_witness :
  exists w',
    trackSiteSearch Sample.trackTypes (Sample2.searchFor "rocq") Sample.busyPage =
      (Return tt, w') /\
    document w' = document Sample.busyPage /\
    _paq w' =
      Some [[JString "setSiteId"; JNumber 7];
            [JString "setCustomDimension"; JNumber 1; JString "a"];
            [JString "setCustomDimension"; JNumber 2; JString "b"];
            [JString "setCustomUrl"; JString "http://site.example/"];
            [JString "setDocumentTitle"; JString "Title"];
            [JString "trackSiteSearch"; JString "rocq"; JString "docs"; JUndefined]].
Proof.
  assert ("rocq" <> "") as Hk by discriminate.
  exact (trackSiteSearch_appends Sample.trackTypes (Sample2.searchFor "rocq") "rocq"
           [[JString "setSiteId"; JNumber 7]] Sample.busyPage eq_refl eq_refl Hk).
Defined.

Lemma required_field_errors_iff_witness :
  trackEvent Sample.trackTypes (Sample.event (Some "c") (Some "")) Sample.busyPage =
    (Throw (Error "Error: category and action are required."), Sample.busyPage) /\
  trackSiteSearch Sample.trackTypes (Sample.search (Some "")) Sample.busyPage =
    (Throw (Error "Error: keyword is required."), Sample.busyPage).
Proof.
  split.
  - apply (proj1 (required_field_errors_iff Sample.trackTypes Sample.busyPage)
                 (Sample.event (Some "c") (Some "")) Sample.busyPage).
    split; [reflexivity|]. right; right; right. reflexivity.
  - apply (proj2 (required_field_errors_iff Sample.trackTypes Sample.busyPage)
                 (Sample.search (Some "")) Sample.busyPage).
    split; [reflexivity|]. right. reflexivity.
Defined.

Lemma trackEvent_with_dimensions_witness :
  exists w',
    trackEvent Sample.trackTypes Sample2.eventWithDimensions Sample.busyPage =
      (Return tt, w') /\
    length (queue w') = 6 /\
    _paq w' =
      Some [[JString "setSiteId"; JNumber 7];
            [JString "setCustomDimension"; JNumber 1; JString "a"];
            [JString "setCustomDimension"; JNumber 2; JString "b"];
            [JString "setCustomUrl"; JString "http://site.example/"];
            [JString "setDocumentTitle"; JString "Title"];
            [JString "trackEvent"; JString "c"; JString "a"; JString "n"; JNumber 5]].
Proof.
  assert ("c" <> "") as Hc by discriminate.
  assert ("a" <> "") as Ha by discriminate.
  exact (trackEvent_with_dimensions Sample.trackTypes Sample2.eventWithDimensions "c" "a"
           [ {| id := 1; value := "a" |}; {| id := 2; value := "b" |} ]
           [[JString "setSiteId"; JNumber 7]] Sample.busyPage
           eq_refl eq_refl Hc eq_refl Ha eq_refl).
Defined.

Lemma trackLink_never_validates_witness :
  exists w',
    trackLink Sample.trackTypes Sample2.download Sample.busyPage = (Return tt, w') /\
    document w' = document Sample.busyPage /\
    _paq w' =
      Some [[JString "setSiteId"; JNumber 7];
            [JString "trackLink"; JUndefined; JString "download"]].
Proof.
  exact (trackLink_never_validates Sample.trackTypes Sample2.download
           [[JString "setSiteId"; JNumber 7]] Sample.busyPage eq_refl).
Defined.

Lemma tracking_without_queue_witness :
  trackPageView Sample.trackTypes Sample.noParams Sample.freshPage =
    (Throw TypeError, Sample.freshPage) /\
  trackLink Sample.trackTypes Sample.link Sample.freshPage =
    (Throw TypeError, Sample.freshPage).
Proof.
  destruct (tracking_without_queue Sample.trackTypes Sample.freshPage eq_refl)
    as (_ & Hview & Hlink & _).
  split; [exact (Hview Sample.noParams)|exact (Hlink Sample.link)].
Defined.

Lemma clickListener_tracks_witness :
  exists w',
    clickListener Sample.trackTypes Sample2.number
      (Sample2.dataset (Some "c") (Some "a")) Sample.busyPage = (Return tt, w') /\
    document w' = document Sample.busyPage /\
    _paq w' =
      Some [[JString "setSiteId"; JNumber 7];
            [JString "setCustomUrl"; JString "http://site.example/"];
            [JString "setDocumentTitle"; JString "Home"];
            [JString "trackEvent"; JString "c"; JString "a"; JString "n"; JNumber 12]].
Proof.
  assert ("c" <> "") as Hc by discriminate.
  assert ("a" <> "") as Ha by discriminate.
  exact (clickListener_tracks Sample.trackTypes Sample2.number
           (Sample2.dataset (Some "c") (Some "a")) "c" "a"
           [[JString "setSiteId"; JNumber 7]] Sample.busyPage
           eq_refl eq_refl Hc eq_refl Ha).
Defined.

Lemma clickListener_errors_witness :
  clickListener Sample.trackTypes Sample2.number
    (Sample2.dataset None (Some "a")) Sample.busyPage =
    (Throw (Error "Error: data-matomo-category and data-matomo-action are required."),
     Sample.busyPage).
Proof.
  exact (proj1 (clickListener_errors Sample.trackTypes Sample2.number
                  (Sample2.dataset None (Some "a")) Sample.busyPage)
               (or_introl eq_refl)).
Defined.

Lemma second_construction_noop_witness :
  let w1 := (constructor Sample.defaults (Sample.options "http://x") Sample.freshPage).2 in
  constructor Sample.defaults (Sample.options "http://y/") w1 = (Return tt, w1).
Proof.
  assert ("http://y/" <> "") as Hy by discriminate.
  exact (second_construction_noop Sample.defaults (Sample.options "http://x")
           (Sample.options "http://y/") "http://y/" Sample.freshPage _ eq_refl eq_refl Hy).
Defined.

Lemma queue_grows_over_time_witness :
  let w1 := (call Sample.defaults Sample.trackTypes (TrackLink Sample.link) Sample.busyPage).2 in
  let w2 := (call Sample.defaults Sample.trackTypes (TrackEvent (Sample.event None None)) w1).2 in
  queue Sample.busyPage `prefix_of` queue w2 /\
  (is_Some (_paq Sample.busyPage) -> is_Some (_paq w2)) /\
  title (document w2) = title (document Sample.busyPage) /\
  location_href w2 = location_href Sample.busyPage.
Proof.
  apply (queue_grows_over_time Sample.defaults Sample.trackTypes).
  apply (rtc_l _ _ _ _ (ex_intro _ (TrackLink Sample.link) eq_refl)).
  apply (rtc_l _ _ _ _ (ex_intro _ (TrackEvent (Sample.event None None)) eq_refl)).
  apply rtc_refl.
Defined.

Lemma script_injected_once_witness :
  let w1 := (constructor Sample.defaults (Sample.options "http://x") Sample.freshPage).2 in
  let w2 := (call Sample.defaults Sample.trackTypes (New (Sample.options "http://y")) w1).2 in
  let w3 := (call Sample.defaults Sample.trackTypes (TrackPageView Sample.noParams) w2).2 in
  document w3 = document w1.
Proof.
  apply (script_injected_once Sample.defaults Sample.trackTypes (Sample.options "http://x")
           Sample.freshPage _ _ eq_refl).
  apply (rtc_l _ _ _ _ (ex_intro _ (New (Sample.options "http://y")) eq_refl)).
  apply (rtc_l _ _ _ _ (ex_intro _ (TrackPageView Sample.noParams) eq_refl)).
  apply rtc_refl.
Defined.

Lemma url_overrides_used_witness :
  exists w',
    initialize Sample2.overridden Sample.freshPage = (Return tt, w') /\
    head (queue w') = Some [JString "setTrackerUrl"; JString "http://t.example/collect"] /\
    nodeAt [0; 0; 1] (nodes (document w')) =
      Some (Elem "script"
              [("type", JString "text/javascript"); ("async", JBool true);
               ("defer", JBool true); ("src", JString "http://cdn.example/m.js")]
              []).
Proof.
  assert ("http://t.example/collect" <> "") as Ht by discriminate.
  assert ("http://cdn.example/m.js" <> "") as Hs by discriminate.
  destruct (url_overrides_used Sample2.overridden "http://x" _ _ Sample.freshPage
              eq_refl eq_refl Ht eq_refl Hs eq_refl) as (r & w' & Hrun & Hq & Hsrc).
  destruct (Hsrc 0 0 [1] eq_refl) as [-> Hn].
  exists w'. split; [exact Hrun|]. split; [exact Hq|exact Hn].
Defined.

Lemma empty_overrides_fall_back_witness :
  initialize {| urlBase := Present "http://x"; siteId := Absent;
                trackerUrl := Present ""; srcUrl := Present "" |} Sample.freshPage =
  initialize {| urlBase := Present "http://x"; siteId := Absent;
                trackerUrl := Absent; srcUrl := Absent |} Sample.freshPage.
Proof.
  exact (empty_overrides_fall_back
           {| urlBase := Present "http://x"; siteId := Absent;
              trackerUrl := Present ""; srcUrl := Present "" |}
           Sample.freshPage eq_refl eq_refl).
Defined.

Lemma siteId_not_validated_witness :
  exists w',
    constructor Sample.defaults Sample2.overridden Sample.freshPage = (Return tt, w') /\
    queue w' !! 1 = Some [JString "setSiteId"; JUndefined].
Proof.
  assert ("http://x" <> "") as Hx by discriminate.
  destruct (siteId_not_validated Sample.defaults Sample2.overridden "http://x"
              Sample.freshPage eq_refl Hx eq_refl eq_refl) as (r & w' & Hrun & -> & Hq).
  exists w'. split; [exact Hrun|exact Hq].
Defined.

Lemma trailing_slash_same_page_witness :
  initialize (Sample.options "http://x") Sample.freshPage =
  initialize (Sample.options "http://x/") Sample.freshPage.
Proof.
  assert (~ (exists s, "http://x" = s +:+ "/")) as Hno.
  { intros [s Hs]. apply (f_equal lastChar) in Hs. revert Hs.
    change ("/") with (String "/"%char EmptyString). rewrite lastChar_app. discriminate. }
  exact (trailing_slash_same_page (Sample.options "http://x") "http://x" Sample.freshPage Hno).
Defined.

Lemma undefined_urlBase_hides_default_witness :
  constructor Sample2.defaultsWithBase Sample2.undefinedBase Sample.freshPage =
    (Throw (Error "Matomo urlBase is required."), Sample.freshPage) /\
  exists w', constructor Sample2.defaultsWithBase Sample.noBase Sample.freshPage =
               (Return tt, w').
Proof.
  assert ("http://default/" <> "") as Hd by discriminate.
  split.
  - exact (proj1 (undefined_urlBase_hides_default Sample2.defaultsWithBase
                    Sample2.undefinedBase Sample.freshPage) eq_refl).
  - exact (proj2 (undefined_urlBase_hides_default Sample2.defaultsWithBase
                    Sample.noBase Sample.freshPage) "http://default/" eq_refl eq_refl Hd).
Defined.

Lemma one_script_element_added_witness :
  (exists w',
     constructor Sample.defaults (Sample.options "http://x") Sample.freshPage =
       (Return tt, w') /\
     countTag "script" (nodes (document w')) = 2 /\
     (forall tag, tag <> "script" ->
        countTag tag (nodes (document w')) =
        countTag tag (nodes (document Sample.freshPage)))) /\
  (exists w',
     constructor Sample.defaults (Sample.options "http://x") Sample.rootScriptPage =
       (Throw HierarchyRequestError, w') /\
     (forall tag, countTag tag (nodes (document w')) =
                  countTag tag (nodes (document Sample.rootScriptPage)))).
Proof.
  assert ("http://x" <> "") as Hx by discriminate.
  split.
  - exact (proj1 (one_script_element_added Sample.defaults (Sample.options "http://x")
                    "http://x" Sample.freshPage eq_refl Hx eq_refl) 0 0 [1] eq_refl).
  - exact (proj2 (one_script_element_added Sample.defaults (Sample.options "http://x")
                    "http://x" Sample.rootScriptPage eq_refl Hx eq_refl) 0 eq_refl).
Defined.
